(** * useGlobalData: the global data cache of the portfolio front end

    A shallow embedding of [frontend/src/hooks/useGlobalData.js]: the
    provider's six state cells, the effect that decides whether to fetch, the
    asynchronous fetch sequence (cut at its single [await]), the context
    value handed to consumers and the two consumer hooks.

    Collaborators that live outside the hook (logger, image preloader,
    performance tracker, data service) appear as events of a trace, in the
    order in which the code invokes them. *)

From Stdlib Require Import ZArith List String Bool Lia DecimalString.
Import ListNotations.

Local Open Scope string_scope.
Local Open Scope list_scope.
Local Open Scope Z_scope.

(** ** JavaScript values

    The values that state cells and the aggregate can hold: what a JSON
    payload is made of, plus [undefined], plus the objects of the host
    environment that a property read can reach through a prototype chain
    (built-in functions and prototype objects, [Builtin]).  Numbers are
    restricted to integers (only "is it zero" matters to the hook). *)

Module JS.

#[local] Set Warnings "-register-all".

Inductive Value : Type :=
| Undefined
| Null
| Bool (b : bool)
| Num (n : Z)
| Str (s : string)
| Arr (items : list Value)
| Obj (props : list (string * Value))
| Builtin (name : string).

(** ToBoolean, as used by [!v], [if (v)] and [v || w]. *)
Definition truthy (v : Value) : bool :=
  match v with
  | Undefined | Null => false
  | Bool b => b
  | Num n => negb (n =? 0)
  | Str s => negb (s =? "")%string
  | Arr _ | Obj _ | Builtin _ => true
  end.

(** [v || w] *)
Definition or (v w : Value) : Value := if truthy v then v else w.

(** First binding of [k] in a property list; [undefined] when there is none. *)
Fixpoint lookup (k : string) (props : list (string * Value)) : Value :=
  match props with
  | [] => Undefined
  | (k', v) :: rest => if (k =? k')%string then v else lookup k rest
  end.

Definition index_key (i : nat) : string := NilZero.string_of_uint (Nat.to_uint i).

Definition index_keys (n : nat) : list string := map index_key (seq 0 n).

Fixpoint chars (s : string) : list Value :=
  match s with
  | EmptyString => []
  | String c rest => Str (String c EmptyString) :: chars rest
  end.

(** Own enumerable string-keyed properties, in enumeration order.  For an
    object the list is the one it carries; arrays and strings expose their
    indices; a host object has none. *)
Definition own_props (v : Value) : list (string * Value) :=
  match v with
  | Obj props => props
  | Arr items => combine (index_keys (List.length items)) items
  | Str s => combine (index_keys (String.length s)) (chars s)
  | _ => []
  end.

(** [Object.keys(v)] for a [v] that is neither [null] nor [undefined]. *)
Definition keys (v : Value) : list string := map fst (own_props v).

(** The own property [k] of a [v] that is neither [null] nor [undefined];
    [undefined] when [v] has no own property of that name. *)
Definition get_own (v : Value) (k : string) : Value :=
  match v with
  | Arr items =>
      if (k =? "length")%string then Num (Z.of_nat (List.length items))
      else lookup k (own_props v)
  | Str s =>
      if (k =? "length")%string then Num (Z.of_nat (String.length s))
      else lookup k (own_props v)
  | _ => lookup k (own_props v)
  end.

(** [Object.hasOwn(v, k)] for a [v] that is neither [null] nor [undefined]:
    arrays and strings own [length] besides their indices.  The model
    carries no own property of a host object: all its reads are the host's. *)
Definition has_own (v : Value) (k : string) : bool :=
  match v with
  | Arr _ | Str _ => (k =? "length")%string || existsb (String.eqb k) (keys v)
  | _ => existsb (String.eqb k) (keys v)
  end.

(** The prototype chains of the host environment: [inherited h v k] is the
    value read at [k] on [v] when [k] is not an own property of [v] but a
    member found further along its prototype chain, [None] when the chain
    has no member of that name. *)
Record Host : Type := mkHost {
  inherited : Value -> string -> option Value
}.

(** [k in v] for an object [v]: own or inherited. *)
Definition has (h : Host) (v : Value) (k : string) : bool :=
  has_own v k ||
  match inherited h v k with
  | Some _ => true
  | None => false
  end.

(** [v[k]] for a [v] that is neither [null] nor [undefined]: the own
    property if there is one, else the inherited member, else
    [undefined]. *)
Definition get (h : Host) (v : Value) (k : string) : Value :=
  if has_own v k then get_own v k
  else match inherited h v k with
       | Some m => m
       | None => Undefined
       end.

(** [v?.[k]] *)
Definition opt_get (h : Host) (v : Value) (k : string) : Value :=
  match v with
  | Undefined | Null => Undefined
  | _ => get h v k
  end.

(** The string-keyed members of the standard [Object.prototype], with the
    value a read returns: the constructor, the prototype itself for
    [__proto__], a built-in function for the others. *)
Definition object_prototype : list (string * Value) :=
  [ ("constructor", Builtin "Object");
    ("__defineGetter__", Builtin "Object.prototype.__defineGetter__");
    ("__defineSetter__", Builtin "Object.prototype.__defineSetter__");
    ("hasOwnProperty", Builtin "Object.prototype.hasOwnProperty");
    ("__lookupGetter__", Builtin "Object.prototype.__lookupGetter__");
    ("__lookupSetter__", Builtin "Object.prototype.__lookupSetter__");
    ("isPrototypeOf", Builtin "Object.prototype.isPrototypeOf");
    ("propertyIsEnumerable", Builtin "Object.prototype.propertyIsEnumerable");
    ("toString", Builtin "Object.prototype.toString");
    ("valueOf", Builtin "Object.prototype.valueOf");
    ("__proto__", Builtin "Object.prototype");
    ("toLocaleString", Builtin "Object.prototype.toLocaleString") ].

(** The host as plain objects see it: an object literal or a parsed JSON
    object inherits the members of [Object.prototype].  The instance says
    nothing of what arrays, strings, numbers or host objects inherit (it
    answers [None] for them); it is used on plain objects only. *)
Definition plain_object_host : Host :=
  {| inherited := fun v k =>
       match v with
       | Obj _ =>
           if existsb (fun m => (k =? fst m)%string) object_prototype
           then Some (lookup k object_prototype)
           else None
       | _ => None
       end |}.

(** The thrown object of a rejected data-service call: an [Error], of which
    the hook reads [message] only. *)
Record Error : Type := mkError { message : string }.

End JS.

(** ** Provider state: the six [useState] cells *)

Record State : Type := mkState {
  globalData : JS.Value;
  loading : bool;
  error : JS.Value;
  lastFetch : Z;
  isInitialLoad : bool;
  showProgress : bool
}.

(** The initial values given to [useState]. *)
Definition initialState : State :=
  {| globalData := JS.Null;
     loading := true;
     error := JS.Null;
     lastFetch := 0;
     isInitialLoad := true;
     showProgress := true |}.

(** ** Collaborator calls *)

Inductive LogMessage : Type :=
| FetchingGlobalData      (* 'Fetching global portfolio data...' *)
| GlobalDataLoaded        (* `Global data loaded in ${...}ms` *)
| UsingCachedGlobalData.  (* 'Using cached global data' *)

(** One constructor per collaborator call the hook makes.  The elapsed
    time handed to [trackDataFetch] and printed in the second log line, a
    difference of two [performance.now()] readings, is not represented.
    Collaborator calls return normally: they are fire-and-forget. *)
Inductive Event : Type :=
| LoggerData (m : LogMessage)
| LoggerError (err : JS.Error)
| PreloadCriticalImages
| GetPortfolioDataOptimized (locale : string)
| TrackDataFetch (label : string)
| PreloadDataImages (data : JS.Value)
| PreloadSectionImages (section : string).

(** ** A state-and-trace monad for the hook's statements *)

Definition M (A : Type) : Type := State -> A * State * list Event.

Definition ret {A} (a : A) : M A := fun s => (a, s, []).

Definition bind {A B} (m : M A) (k : A -> M B) : M B :=
  fun s =>
    let '(a, s1, t1) := m s in
    let '(b, s2, t2) := k a s1 in
    (b, s2, t1 ++ t2).

Declare Scope hook_scope.
Delimit Scope hook_scope with hook.
Notation "x <- m ;; k" := (bind m (fun x => k))
  (at level 61, m at next level, right associativity) : hook_scope.
Notation "m ;; k" := (bind m (fun _ => k))
  (at level 61, right associativity) : hook_scope.
Local Open Scope hook_scope.

Definition get : M State := fun s => (s, s, []).
Definition emit (e : Event) : M unit := fun s => (tt, s, [e]).

Definition exec {A} (m : M A) (s : State) : State := snd (fst (m s)).
Definition events {A} (m : M A) (s : State) : list Event := snd (m s).

(** The setters returned by [useState]. *)
Definition setGlobalData (v : JS.Value) : M unit :=
  fun s => (tt, {| globalData := v; loading := loading s; error := error s;
                   lastFetch := lastFetch s; isInitialLoad := isInitialLoad s;
                   showProgress := showProgress s |}, []).
Definition setLoading (b : bool) : M unit :=
  fun s => (tt, {| globalData := globalData s; loading := b; error := error s;
                   lastFetch := lastFetch s; isInitialLoad := isInitialLoad s;
                   showProgress := showProgress s |}, []).
Definition setError (v : JS.Value) : M unit :=
  fun s => (tt, {| globalData := globalData s; loading := loading s; error := v;
                   lastFetch := lastFetch s; isInitialLoad := isInitialLoad s;
                   showProgress := showProgress s |}, []).
Definition setLastFetch (t : Z) : M unit :=
  fun s => (tt, {| globalData := globalData s; loading := loading s; error := error s;
                   lastFetch := t; isInitialLoad := isInitialLoad s;
                   showProgress := showProgress s |}, []).
Definition setIsInitialLoad (b : bool) : M unit :=
  fun s => (tt, {| globalData := globalData s; loading := loading s; error := error s;
                   lastFetch := lastFetch s; isInitialLoad := b;
                   showProgress := showProgress s |}, []).
Definition setShowProgress (b : bool) : M unit :=
  fun s => (tt, {| globalData := globalData s; loading := loading s; error := error s;
                   lastFetch := lastFetch s; isInitialLoad := isInitialLoad s;
                   showProgress := b |}, []).

(** [list.forEach(f)] *)
Fixpoint forEach {A} (l : list A) (f : A -> M unit) : M unit :=
  match l with
  | [] => ret tt
  | x :: rest => f x ;; forEach rest f
  end.

(** ** The fetch sequence *)

(** How the awaited data-service promise settles. *)
Inductive Settlement : Type :=
| Fulfilled (data : JS.Value)
| Rejected (err : JS.Error).

(** [section !== 'home' && section !== 'contact'] *)
Definition preloadable (section : string) : bool :=
  negb (section =? "home")%string && negb (section =? "contact")%string.

(** [fetchGlobalData] up to its [await]: the statements that run
    synchronously when the effect calls it. *)
Definition fetchGlobalData_begin : M unit :=
  setLoading true ;;
  setError JS.Null ;;
  emit (LoggerData FetchingGlobalData) ;;
  emit PreloadCriticalImages ;;
  emit (GetPortfolioDataOptimized "en").

(** [fetchGlobalData] from its [await] on: the rest of the [try] block when
    the promise is fulfilled, the [catch] block when it is rejected, and the
    [finally] block in both cases.  [now] is the reading of [Date.now()]
    taken on the success path. *)
Definition fetchGlobalData_resume (r : Settlement) (now : Z) : M unit :=
  match r with
  | Fulfilled data =>
      emit (LoggerData GlobalDataLoaded) ;;
      emit (TrackDataFetch "global_portfolio_data") ;;
      setGlobalData data ;;
      setLastFetch now ;;
      (if JS.truthy data then
         emit (PreloadDataImages data) ;;
         forEach (JS.keys data) (fun section =>
           if preloadable section then emit (PreloadSectionImages section)
           else ret tt)
       else ret tt) ;;
      setIsInitialLoad false
  | Rejected err =>
      emit (LoggerError err) ;;
      setError (JS.Str (JS.message err)) ;;
      setIsInitialLoad false
  end ;;
  setLoading false.

(** One whole fetch sequence, from the call to the end of [finally]. *)
Definition fetchGlobalData (r : Settlement) (now : Z) : M unit :=
  fetchGlobalData_begin ;; fetchGlobalData_resume r now.

(** ** The effect: staleness evaluation *)

Definition CACHE_DURATION : Z := 30 * 60 * 1000.

(** [!globalData || (Date.now() - lastFetch) > CACHE_DURATION] *)
Definition shouldFetch (s : State) (now : Z) : bool :=
  negb (JS.truthy (globalData s)) || (now - lastFetch s >? CACHE_DURATION).

(** The body of [useEffect], run with [Date.now() = now]; a fetch that it
    starts stays suspended at its [await]. *)
Definition effect (now : Z) : M unit :=
  s <- get ;;
  if shouldFetch s now then fetchGlobalData_begin
  else
    emit (LoggerData UsingCachedGlobalData) ;;
    setLoading false ;;
    setIsInitialLoad false.

(** [value.refetch] *)
Definition refetch : M unit := setLastFetch 0.

Definition handleProgressComplete : M unit := setShowProgress false.

(** ** What the provider renders and what consumers read *)

(** The object [value] built on every render of the provider. *)
Module Ctx.
Record t : Type := mk {
  data : JS.Value;
  loading : bool;
  error : JS.Value;
  lastFetch : Z;
  isInitialLoad : bool;
  refetch : M unit
}.
End Ctx.

Definition value (s : State) : Ctx.t :=
  {| Ctx.data := globalData s;
     Ctx.loading := loading s;
     Ctx.error := error s;
     Ctx.lastFetch := lastFetch s;
     Ctx.isInitialLoad := isInitialLoad s;
     Ctx.refetch := refetch |}.

(** The element returned by the provider component: the progress loader
    (children are not rendered), or the context provider around the
    children. *)
Inductive Rendered : Type :=
| LoadingProgress (onComplete : M unit)
| ContextProvider (v : Ctx.t).

Definition GlobalDataProvider (s : State) : Rendered :=
  if isInitialLoad s && showProgress s
  then LoadingProgress handleProgressComplete
  else ContextProvider (value s).

(** What [useContext(GlobalDataContext)] yields in a component: the value of
    the provider above it, or the default of [createContext()], which is
    [undefined], when there is none. *)
Definition Context : Type := option Ctx.t.

Inductive Exn : Type :=
| Error (msg : string).

(** Hook to use global data. *)
Definition useGlobalData (context : Context) : Exn + Ctx.t :=
  match context with
  | None => inl (Error "useGlobalData must be used within a GlobalDataProvider")
  | Some c => inr c
  end.

Module SectionData.
Record t : Type := mk {
  data : JS.Value;
  loading : bool;
  error : JS.Value
}.
End SectionData.

(** Hook to get specific section data.  [h] is the host environment in
    which the property read [data?.[sectionName]] runs. *)
Definition useSectionData (h : JS.Host) (context : Context) (sectionName : string)
  : Exn + SectionData.t :=
  match useGlobalData context with
  | inl e => inl e
  | inr c =>
      inr {| SectionData.data := JS.or (JS.opt_get h (Ctx.data c) sectionName) JS.Null;
             SectionData.loading := Ctx.loading c;
             SectionData.error := Ctx.error c |}
  end.

(** ** The mounted provider as a transition system

    Between two renders the provider can: run its effect, see one of the
    suspended fetch sequences resume, have [refetch] called by a consumer,
    or be told by the progress loader that it is done.  State updates made
    by one such step are committed together, as React 18 batches the updates
    made in one task.  React runs the effect after
    the mount and after a render in which [globalData] or [lastFetch]
    changed; the system lets it run at any time, with any clock reading,
    which covers those runs (and overlapping fetch sequences). *)

Record Provider : Type := mkProvider {
  cache : State;
  inflight : nat;          (* fetch sequences suspended at their [await] *)
  history : list Event     (* collaborator calls made so far *)
}.

Inductive Action : Type :=
| Evaluate (now : Z)
| Settle (r : Settlement) (now : Z)
| Refetch
| ProgressComplete.

Definition mount : Provider :=
  {| cache := initialState; inflight := 0; history := [] |}.

Definition perform (m : M unit) (n : nat) (p : Provider) : Provider :=
  {| cache := exec m (cache p);
     inflight := n;
     history := history p ++ events m (cache p) |}.

Definition step (a : Action) (p : Provider) : option Provider :=
  match a with
  | Evaluate now =>
      Some (perform (effect now)
              (if shouldFetch (cache p) now then S (inflight p) else inflight p) p)
  | Settle r now =>
      match inflight p with
      | O => None
      | S n => Some (perform (fetchGlobalData_resume r now) n p)
      end
  | Refetch => Some (perform refetch (inflight p) p)
  | ProgressComplete => Some (perform handleProgressComplete (inflight p) p)
  end.

Fixpoint run (acts : list Action) (p : Provider) : option Provider :=
  match acts with
  | [] => Some p
  | a :: rest =>
      match step a p with
      | Some p' => run rest p'
      | None => None
      end
  end.

Definition is_settle (a : Action) : bool :=
  match a with
  | Settle _ _ => true
  | _ => false
  end.

(** A state is quiescent when no fetch sequence is suspended. *)
Definition quiescent (p : Provider) : Prop := inflight p = 0%nat.

(** ** Notions used in the statements *)

(** The loop over [Object.keys(data)] only talks to the image preloader. *)
Definition section_preloads (ks : list string) : list Event :=
  map PreloadSectionImages (filter preloadable ks).

Definition preload_each (ks : list string) : M unit :=
  forEach ks (fun section =>
    if preloadable section then emit (PreloadSectionImages section) else ret tt).

(** The image-preloader calls made after a fulfilled fetch. *)
Definition data_preloads (d : JS.Value) : list Event :=
  if JS.truthy d
  then PreloadDataImages d :: section_preloads (JS.keys d)
  else [].

(** Absent data, as the hook tests it with [!globalData] and [if (data)]:
    the cell holds [null] (its initial value), [undefined] or another falsy
    value.  An aggregate object is never absent. *)
Definition absent (d : JS.Value) : Prop := JS.truthy d = false.

(** The spec's reading of the test: data absent, or older than the cache
    duration. *)
Definition stale (s : State) (now : Z) : Prop :=
  absent (globalData s) \/ now - lastFetch s > CACHE_DURATION.

(** An aggregate of the shape the data service delivers (the sample of the
    repository's [portfolioData], top-level sections with their first
    entries). *)
Definition portfolioData : JS.Value :=
  JS.Obj
    [ ("home", JS.Obj [ ("title", JS.Str "Your Name");
                        ("subtitle", JS.Str "Your Title/Role");
                        ("description",
                         JS.Str "Brief introduction or tagline about yourself") ]);
      ("about", JS.Obj [ ("introduction",
                          JS.Str "Detailed introduction about yourself and your professional journey");
                         ("skills", JS.Arr [JS.Str "Skill 1"; JS.Str "Skill 2"; JS.Str "Skill 3"]);
                         ("interests",
                          JS.Arr [JS.Str "Interest 1"; JS.Str "Interest 2"; JS.Str "Interest 3"]) ]);
      ("awards", JS.Arr [ JS.Obj [ ("title", JS.Str "Award Name");
                                   ("organization", JS.Str "Organization Name");
                                   ("date", JS.Str "Month Year");
                                   ("description",
                                    JS.Str "Description of the award and its significance") ] ]);
      ("education", JS.Arr [ JS.Obj [ ("school", JS.Str "University Name");
                                      ("education_type", JS.Str "Degree Type");
                                      ("major", JS.Str "Field of Study");
                                      ("graduationDate", JS.Str "Month Year");
                                      ("gpa", JS.Str "X.XX") ] ]);
      ("experience", JS.Arr [ JS.Obj [ ("company", JS.Str "Company Name");
                                       ("position", JS.Str "Position Title");
                                       ("location", JS.Str "City, State") ] ]);
      ("gallery", JS.Arr [ JS.Obj [ ("title", JS.Str "Project/Work Title");
                                    ("imageUrl", JS.Str "/path/to/image.jpg");
                                    ("description", JS.Str "Description of the work");
                                    ("category", JS.Str "Category") ] ]);
      ("organizations", JS.Arr [ JS.Obj [ ("name", JS.Str "Organization Name");
                                          ("role", JS.Str "Your Role") ] ]);
      ("projects", JS.Arr [ JS.Obj [ ("title", JS.Str "Minimal Project");
                                     ("description",
                                      JS.Str "This is a minimal project entry");
                                     ("technologies", JS.Arr [JS.Str "React"]);
                                     ("highlights", JS.Arr [JS.Str "Main feature"]) ] ]) ].

(** The projection as the spec words it: the value of field [name] when the
    aggregate is loaded and has that field, absent ([null]) otherwise. *)
Definition section_value_by_presence
  (h : JS.Host) (d : JS.Value) (name : string) : JS.Value :=
  match d with
  | JS.Undefined | JS.Null => JS.Null
  | _ => if JS.has h d name then JS.get h d name else JS.Null
  end.

(** The projection the hook computes: [data?.[sectionName] || null]. *)
Definition section_value (h : JS.Host) (d : JS.Value) (name : string) : JS.Value :=
  JS.or (JS.opt_get h d name) JS.Null.

(** A loaded cache, five minutes before a clock reading of 1762041900000:
    data present and fetched well within the cache duration. *)
Definition fresh_cache : State :=
  {| globalData := portfolioData;
     loading := false;
     error := JS.Null;
     lastFetch := 1762041600000;
     isInitialLoad := false;
     showProgress := false |}.

(** A loaded cache whose aggregate has a field holding [false]. *)
Definition cache_with_falsy_field : State :=
  {| globalData := JS.Obj [ ("home", JS.Obj [("title", JS.Str "Your Name")]);
                            ("featured", JS.Bool false) ];
     loading := false;
     error := JS.Null;
     lastFetch := 1762041600000;
     isInitialLoad := false;
     showProgress := false |}.

(** Data is present only once the initial load is over. *)
Definition loaded_inv (s : State) : Prop :=
  JS.truthy (globalData s) = true -> isInitialLoad s = false.

(** ** Notions used for the runs of the provider *)

Definition is_evaluate (a : Action) : bool :=
  match a with
  | Evaluate _ => true
  | _ => false
  end.

Definition is_progress (a : Action) : bool :=
  match a with
  | ProgressComplete => true
  | _ => false
  end.

Definition is_fulfilled (a : Action) : bool :=
  match a with
  | Settle (Fulfilled _) _ => true
  | _ => false
  end.

Definition is_rejected (a : Action) : bool :=
  match a with
  | Settle (Rejected _) _ => true
  | _ => false
  end.

(** The state cells in the dependency array of the effect,
    [[globalData, lastFetch, CACHE_DURATION]]; the third entry is a
    constant. *)
Definition effect_deps (s : State) : JS.Value * Z := (globalData s, lastFetch s).

Definition is_service_call (e : Event) : bool :=
  match e with
  | GetPortfolioDataOptimized _ => true
  | _ => false
  end.

Definition is_critical_preload (e : Event) : bool :=
  match e with
  | PreloadCriticalImages => true
  | _ => false
  end.

Definition is_tracker_report (e : Event) : bool :=
  match e with
  | TrackDataFetch _ => true
  | _ => false
  end.

Definition is_error_log (e : Event) : bool :=
  match e with
  | LoggerError _ => true
  | _ => false
  end.

Definition count {A} (f : A -> bool) (l : list A) : nat := List.length (filter f l).

(** The arguments with which the hook calls its collaborators. *)
Definition well_addressed (e : Event) : bool :=
  match e with
  | GetPortfolioDataOptimized locale => (locale =? "en")%string
  | TrackDataFetch label => (label =? "global_portfolio_data")%string
  | PreloadDataImages d => JS.truthy d
  | PreloadSectionImages k => preloadable k
  | _ => true
  end.

(** ** The portfolio data contract

    The interfaces and the sample aggregate of the repository's
    [portfolioData] module.  A type is [string], an array type or an
    object type whose fields are required or optional ([name?: T]);
    conformance is structural: an object may carry more fields than its
    interface lists.  A field counts when the object owns it, and its value
    is then the own one. *)

Module TS.

#[local] Set Warnings "-register-all".

Inductive Ty : Type :=
| TString
| TArray (elt : Ty)
| TObject (fields : list (string * (bool * Ty))).

(** [name: T] and [name?: T] *)
Definition req (name : string) (t : Ty) : string * (bool * Ty) := (name, (false, t)).
Definition opt (name : string) (t : Ty) : string * (bool * Ty) := (name, (true, t)).

Definition is_undefined (v : JS.Value) : bool :=
  match v with
  | JS.Undefined => true
  | _ => false
  end.

Fixpoint conforms (t : Ty) (v : JS.Value) {struct t} : bool :=
  match t with
  | TString =>
      match v with
      | JS.Str _ => true
      | _ => false
      end
  | TArray elt =>
      match v with
      | JS.Arr items => forallb (conforms elt) items
      | _ => false
      end
  | TObject fields =>
      match v with
      | JS.Obj _ =>
          forallb (fun f =>
                     match f with
                     | (name, (optional, ty)) =>
                         if JS.has_own v name
                         then conforms ty (JS.get_own v name)
                              || (optional && is_undefined (JS.get_own v name))
                         else optional
                     end) fields
      | _ => false
      end
  end.

Definition HomeSection : Ty :=
  TObject [req "title" TString; req "subtitle" TString; req "description" TString].

Definition AboutSection : Ty :=
  TObject [req "introduction" TString; req "skills" (TArray TString);
           req "interests" (TArray TString)].

Definition AwardItem : Ty :=
  TObject [req "title" TString; req "organization" TString; req "date" TString;
           req "description" TString].

Definition EducationItem : Ty :=
  TObject [req "school" TString; req "education_type" TString;
           req "major" TString; req "graduationDate" TString;
           opt "gpa" TString; opt "relevantCourses" (TArray TString)].

Definition ExperienceItem : Ty :=
  TObject [req "company" TString; req "position" TString;
           req "startDate" TString; req "endDate" TString;
           req "location" TString; req "responsibilities" (TArray TString);
           req "skills" (TArray TString); opt "technologies" (TArray TString)].

Definition GalleryItem : Ty :=
  TObject [req "title" TString; req "imageUrl" TString;
           req "description" TString; opt "category" TString].

Definition OrganizationItem : Ty :=
  TObject [req "name" TString; req "role" TString; req "startDate" TString;
           req "endDate" TString; req "description" TString;
           opt "achievements" (TArray TString)].

Definition ProjectItem : Ty :=
  TObject [req "title" TString; req "description" TString;
           req "technologies" (TArray TString); req "skills" (TArray TString);
           opt "githubUrl" TString; opt "liveUrl" TString;
           opt "imageUrl" TString; req "highlights" (TArray TString)].

Definition PortfolioData_fields : list (string * (bool * Ty)) :=
  [req "home" HomeSection; req "about" AboutSection;
   req "awards" (TArray AwardItem); req "education" (TArray EducationItem);
   req "experience" (TArray ExperienceItem); req "gallery" (TArray GalleryItem);
   req "organizations" (TArray OrganizationItem);
   req "projects" (TArray ProjectItem)].

Definition PortfolioData : Ty := TObject PortfolioData_fields.

(** The section names of the interface. *)
Definition section_names : list string := map fst PortfolioData_fields.

Definition strings (l : list string) : JS.Value := JS.Arr (map JS.Str l).

(** [const portfolioData: PortfolioData = {...}] *)
Definition portfolioData : JS.Value :=
  JS.Obj
    [ ("home",
       JS.Obj [ ("title", JS.Str "Your Name");
                ("subtitle", JS.Str "Your Title/Role");
                ("description",
                 JS.Str "Brief introduction or tagline about yourself") ]);
      ("about",
       JS.Obj [ ("introduction",
                 JS.Str "Detailed introduction about yourself and your professional journey");
                ("skills", strings ["Skill 1"; "Skill 2"; "Skill 3"]);
                ("interests", strings ["Interest 1"; "Interest 2"; "Interest 3"]) ]);
      ("awards",
       JS.Arr
         [ JS.Obj [ ("title", JS.Str "Award Name");
                    ("organization", JS.Str "Organization Name");
                    ("date", JS.Str "Month Year");
                    ("description",
                     JS.Str "Description of the award and its significance") ];
           JS.Obj [ ("title", JS.Str "Second Award");
                    ("organization", JS.Str "Another Organization");
                    ("date", JS.Str "January 2024");
                    ("description",
                     JS.Str "Description of your second award and its achievements") ] ]);
      ("education",
       JS.Arr
         [ JS.Obj [ ("school", JS.Str "University Name");
                    ("education_type", JS.Str "Degree Type");
                    ("major", JS.Str "Field of Study");
                    ("graduationDate", JS.Str "Month Year");
                    ("gpa", JS.Str "X.XX");
                    ("relevantCourses",
                     strings ["Course 1"; "Course 2"; "Course 3"]) ] ]);
      ("experience",
       JS.Arr
         [ JS.Obj [ ("company", JS.Str "Company Name");
                    ("position", JS.Str "Position Title");
                    ("startDate", JS.Str "Month Year");
                    ("endDate", JS.Str "Month Year");
                    ("location", JS.Str "City, State");
                    ("responsibilities",
                     strings ["Key responsibility 1"; "Key responsibility 2"]);
                    ("skills", strings ["Skill 1"; "Skill 2"]);
                    ("technologies", strings ["Tech 1"; "Tech 2"]) ] ]);
      ("gallery",
       JS.Arr
         [ JS.Obj [ ("title", JS.Str "Project/Work Title");
                    ("imageUrl", JS.Str "/path/to/image.jpg");
                    ("description", JS.Str "Description of the work");
                    ("category", JS.Str "Category") ] ]);
      ("organizations",
       JS.Arr
         [ JS.Obj [ ("name", JS.Str "Organization Name");
                    ("role", JS.Str "Your Role");
                    ("startDate", JS.Str "Month Year");
                    ("endDate", JS.Str "Month Year");
                    ("description", JS.Str "Description of your involvement");
                    ("achievements",
                     strings ["Achievement 1"; "Achievement 2"]) ] ]);
      ("projects",
       JS.Arr
         [ JS.Obj [ ("title", JS.Str "Project Name");
                    ("description", JS.Str "Project description");
                    ("technologies", strings ["Tech 1"; "Tech 2"; "Tech 3"]);
                    ("skills", strings ["Skill 1"; "Skill 2"]);
                    ("githubUrl", JS.Str "https://github.com/username/project");
                    ("liveUrl", JS.Str "https://project-demo.com");
                    ("imageUrl", JS.Str "/path/to/project-image.jpg");
                    ("highlights", strings ["Key feature 1"; "Key feature 2"]) ];
           JS.Obj [ ("title", JS.Str "Minimal Project");
                    ("description", JS.Str "This is a minimal project entry");
                    ("technologies", strings ["React"]);
                    ("skills", strings ["Skill 1"; "Skill 2"]);
                    ("highlights", strings ["Main feature"]) ] ]) ].

End TS.

(** [loading = true] means a fetch is suspended. *)
Definition loading_inv (p : Provider) : Prop :=
  loading (cache p) = true -> (0 < inflight p)%nat.

(** ** Basic facts about the monad and the setters *)

Lemma exec_bind {A B} (m : M A) (k : A -> M B) (s : State) :
  exec (bind m k) s = exec (k (fst (fst (m s)))) (exec m s).
Proof.
  unfold exec, bind. destruct (m s) as [[a s1] t1]. simpl.
  destruct (k a s1) as [[b s2] t2]. reflexivity.
Qed.

Lemma events_bind {A B} (m : M A) (k : A -> M B) (s : State) :
  events (bind m k) s = events m s ++ events (k (fst (fst (m s)))) (exec m s).
Proof.
  unfold events, exec, bind. destruct (m s) as [[a s1] t1]. simpl.
  destruct (k a s1) as [[b s2] t2]. reflexivity.
Qed.

Lemma preload_each_run (ks : list string) (s : State) :
  preload_each ks s = (tt, s, section_preloads ks).
Proof.
  unfold preload_each, section_preloads.
  induction ks as [|k ks IH]; [reflexivity|].
  cbn [forEach filter map]. unfold bind at 1.
  destruct (preloadable k); cbv beta iota delta [emit ret] in IH |- *;
    rewrite IH; reflexivity.
Qed.

Lemma begin_run (s : State) :
  fetchGlobalData_begin s =
  (tt,
   {| globalData := globalData s; loading := true; error := JS.Null;
      lastFetch := lastFetch s; isInitialLoad := isInitialLoad s;
      showProgress := showProgress s |},
   [LoggerData FetchingGlobalData; PreloadCriticalImages;
    GetPortfolioDataOptimized "en"]).
Proof. reflexivity. Qed.

Lemma resume_fulfilled_run (d : JS.Value) (now : Z) (s : State) :
  fetchGlobalData_resume (Fulfilled d) now s =
  (tt,
   {| globalData := d; loading := false; error := error s;
      lastFetch := now; isInitialLoad := false;
      showProgress := showProgress s |},
   [LoggerData GlobalDataLoaded; TrackDataFetch "global_portfolio_data"]
     ++ data_preloads d).
Proof.
  unfold fetchGlobalData_resume, data_preloads.
  fold (preload_each (JS.keys d)).
  destruct (JS.truthy d); [|reflexivity].
  cbv beta iota delta [bind emit setGlobalData setLastFetch setIsInitialLoad
                       setLoading].
  rewrite preload_each_run. cbn. rewrite ?app_nil_r. reflexivity.
Qed.

Lemma resume_rejected_run (e : JS.Error) (now : Z) (s : State) :
  fetchGlobalData_resume (Rejected e) now s =
  (tt,
   {| globalData := globalData s; loading := false;
      error := JS.Str (JS.message e);
      lastFetch := lastFetch s; isInitialLoad := false;
      showProgress := showProgress s |},
   [LoggerError e]).
Proof. reflexivity. Qed.

Lemma effect_run (now : Z) (s : State) :
  effect now s =
  if shouldFetch s now then fetchGlobalData_begin s
  else (tt,
        {| globalData := globalData s; loading := false; error := error s;
           lastFetch := lastFetch s; isInitialLoad := false;
           showProgress := showProgress s |},
        [LoggerData UsingCachedGlobalData]).
Proof.
  unfold effect, bind, get. destruct (shouldFetch s now); reflexivity.
Qed.

(** ** Staleness evaluation *)

Lemma absent_cases (d : JS.Value) :
  (d = JS.Null \/ d = JS.Undefined -> absent d) /\
  (forall props, ~ absent (JS.Obj props)) /\
  (forall items, ~ absent (JS.Arr items)).
Proof.
  unfold absent. repeat split.
  - intros [-> | ->]; reflexivity.
  - intros props H. discriminate.
  - intros items H. discriminate.
Qed.

Lemma shouldFetch_stale (s : State) (now : Z) :
  shouldFetch s now = true <-> stale s now.
Proof.
  unfold shouldFetch, stale, absent.
  rewrite orb_true_iff, negb_true_iff, Z.gtb_gt. reflexivity.
Qed.

Lemma shouldFetch_fresh (s : State) (now : Z) :
  shouldFetch s now = false <->
  JS.truthy (globalData s) = true /\ now - lastFetch s <= CACHE_DURATION.
Proof.
  unfold shouldFetch.
  rewrite orb_false_iff, negb_false_iff, Z.gtb_ltb, Z.ltb_ge. reflexivity.
Qed.

(** C1.  The cache duration is 30 minutes in milliseconds, and one run of the
    effect starts a fetch sequence (and so calls the data service) exactly
    when the data is absent or [now - lastFetch] exceeds that duration.  When
    data is present and [now - lastFetch <= CACHE_DURATION] the run makes no
    call to the data service at all and only logs that the cache is used. *)
Theorem staleness_decides_fetch (s : State) (now : Z) :
  CACHE_DURATION = 30 * 60 * 1000 /\
  CACHE_DURATION = 1800000 /\
  (effect now s = fetchGlobalData_begin s <-> stale s now) /\
  (In (GetPortfolioDataOptimized "en") (events (effect now) s) <-> stale s now) /\
  (JS.truthy (globalData s) = true /\ now - lastFetch s <= CACHE_DURATION ->
   events (effect now) s = [LoggerData UsingCachedGlobalData] /\
   forall locale, ~ In (GetPortfolioDataOptimized locale) (events (effect now) s)).
Proof.
  split; [reflexivity|]. split; [reflexivity|].
  unfold events. rewrite effect_run, <- shouldFetch_stale, begin_run.
  destruct (shouldFetch s now) eqn:E.
  - repeat split; intros; try reflexivity; try (simpl; tauto).
    + apply shouldFetch_fresh in H. congruence.
    + apply shouldFetch_fresh in H. congruence.
  - repeat split; intros; try discriminate; try reflexivity.
    + simpl in H. destruct H as [H|[]]. discriminate.
    + simpl. intros [H0|[]]. discriminate.
Qed.

Lemma staleness_decides_fetch_witness :
  events (effect 1762041900000)
    {| globalData := portfolioData; loading := false; error := JS.Null;
       lastFetch := 1762041600050; isInitialLoad := false;
       showProgress := false |}
  = [LoggerData UsingCachedGlobalData] /\
  forall locale,
    ~ In (GetPortfolioDataOptimized locale)
         (events (effect 1762041900000)
            {| globalData := portfolioData; loading := false; error := JS.Null;
               lastFetch := 1762041600050; isInitialLoad := false;
               showProgress := false |}).
Proof.
  apply (proj2 (proj2 (proj2 (proj2
           (staleness_decides_fetch
              {| globalData := portfolioData; loading := false;
                 error := JS.Null; lastFetch := 1762041600050;
                 isInitialLoad := false; showProgress := false |}
              1762041900000))))).
  split; [reflexivity|]. unfold CACHE_DURATION. simpl. lia.
Defined.

(** ** Outcome of one fetch sequence *)

(** C3.  A fetch sequence whose data-service call is rejected with an error
    of message [m], run from state [s] with no other step in between, ends
    with [error = m], [globalData] as it was before the sequence and
    [loading = false]; started from the initial state, data is still absent.
    Neither half of a failing sequence writes [globalData], from whatever
    state it runs.  Whatever the settlement, and whatever the state at
    resumption, the sequence ends with [loading = false]. *)
Theorem failed_fetch_keeps_data (s : State) (m : string) (now : Z) :
  let s' := exec (fetchGlobalData (Rejected (JS.mkError m)) now) s in
  (error s' = JS.Str m /\
   globalData s' = globalData s /\
   loading s' = false) /\
  globalData (exec (fetchGlobalData (Rejected (JS.mkError m)) now) initialState)
    = JS.Null /\
  (forall s0, globalData (exec fetchGlobalData_begin s0) = globalData s0 /\
              globalData (exec (fetchGlobalData_resume (Rejected (JS.mkError m)) now) s0)
              = globalData s0 /\
              error (exec (fetchGlobalData_resume (Rejected (JS.mkError m)) now) s0)
              = JS.Str m) /\
  (forall r t, loading (exec (fetchGlobalData r t) s) = false) /\
  (forall r t s0, loading (exec (fetchGlobalData_resume r t) s0) = false).
Proof.
  unfold fetchGlobalData. cbv zeta.
  repeat split; try reflexivity.
  - intros r t. rewrite exec_bind. unfold exec.
    destruct r; [rewrite resume_fulfilled_run | rewrite resume_rejected_run];
      reflexivity.
  - intros r t s0. unfold exec.
    destruct r; [rewrite resume_fulfilled_run | rewrite resume_rejected_run];
      reflexivity.
Qed.

(** C4.  A fetch sequence whose data-service call is fulfilled with [d], the
    clock reading [t] on completion, run from state [s] with no other step
    in between, ends with [globalData = d], [lastFetch = t] and [error]
    cleared to [null].  The two writes happen at resumption, from whatever
    state it resumes; [error] is cleared when the sequence begins and is not
    written on the success path. *)
Theorem successful_fetch_stores_data (s : State) (d : JS.Value) (t : Z) :
  let s' := exec (fetchGlobalData (Fulfilled d) t) s in
  (globalData s' = d /\ lastFetch s' = t /\ error s' = JS.Null) /\
  (forall s0, globalData (exec (fetchGlobalData_resume (Fulfilled d) t) s0) = d /\
              lastFetch (exec (fetchGlobalData_resume (Fulfilled d) t) s0) = t /\
              error (exec (fetchGlobalData_resume (Fulfilled d) t) s0) = error s0) /\
  error (exec fetchGlobalData_begin s) = JS.Null.
Proof.
  unfold fetchGlobalData. cbv zeta. rewrite exec_bind. unfold exec.
  rewrite resume_fulfilled_run, begin_run. simpl.
  repeat split; try reflexivity;
    rewrite resume_fulfilled_run; reflexivity.
Qed.

(** ** Order of collaborator calls in one fetch sequence *)

(** C7.  The calls of one fetch sequence, in order: the critical-image
    preload comes before the data-service call, hence before that call
    settles; after a fulfilled call with truthy data come the data-images
    preload and then one section preload per key of [Object.keys(data)] other
    than home and contact, in key order; with falsy data or after a rejected
    call the image preloader is not called again. *)
Theorem fetch_sequence_order (s : State) (r : Settlement) (now : Z) :
  events (fetchGlobalData r now) s =
  [LoggerData FetchingGlobalData; PreloadCriticalImages;
   GetPortfolioDataOptimized "en"]
  ++ match r with
     | Fulfilled d =>
         [LoggerData GlobalDataLoaded; TrackDataFetch "global_portfolio_data"]
         ++ (if JS.truthy d
             then PreloadDataImages d
                  :: map PreloadSectionImages
                       (filter (fun k => negb (k =? "home")%string
                                         && negb (k =? "contact")%string)
                               (JS.keys d))
             else [])
     | Rejected e => [LoggerError e]
     end.
Proof.
  unfold fetchGlobalData. rewrite events_bind. unfold events, exec.
  destruct r as [d|e].
  - rewrite resume_fulfilled_run, begin_run. reflexivity.
  - rewrite resume_rejected_run, begin_run. reflexivity.
Qed.

(** ** refetch *)

(** [refetch] writes the timestamp cell and nothing else. *)
Lemma refetch_run (s : State) :
  refetch s =
  (tt,
   {| globalData := globalData s; loading := loading s; error := error s;
      lastFetch := 0; isInitialLoad := isInitialLoad s;
      showProgress := showProgress s |},
   []).
Proof. reflexivity. Qed.

(** C5.  [refetch()] writes 0 to [lastFetch], leaves every other cell (data
    included) as it was and calls no collaborator.  [Date.now()] counts the
    milliseconds since 1970: at every clock reading later than
    [CACHE_DURATION], that is later than 00:30 on 1 January 1970, the
    evaluation that follows starts a fetch sequence and calls the data
    service, whether or not data is present and however recently it was
    fetched.  In general that evaluation fetches exactly when data is absent
    or the reading exceeds [CACHE_DURATION]. *)
Theorem refetch_forces_fetch (s : State) :
  (lastFetch (exec refetch s) = 0 /\
   globalData (exec refetch s) = globalData s /\
   loading (exec refetch s) = loading s /\
   error (exec refetch s) = error s /\
   isInitialLoad (exec refetch s) = isInitialLoad s /\
   showProgress (exec refetch s) = showProgress s /\
   events refetch s = []) /\
  (forall now,
     shouldFetch (exec refetch s) now
     = negb (JS.truthy (globalData s)) || (now >? CACHE_DURATION)) /\
  (forall now, CACHE_DURATION < now ->
     effect now (exec refetch s) = fetchGlobalData_begin (exec refetch s) /\
     In (GetPortfolioDataOptimized "en") (events (effect now) (exec refetch s))).
Proof.
  split; [repeat split|split].
  - intro now. unfold shouldFetch, exec. rewrite refetch_run. simpl.
    rewrite Z.sub_0_r. reflexivity.
  - intros now Hnow.
    assert (E : shouldFetch (exec refetch s) now = true).
    { unfold shouldFetch, exec. rewrite refetch_run. simpl.
      rewrite Z.sub_0_r. apply orb_true_iff. right. apply Z.gtb_gt. lia. }
    unfold events. rewrite effect_run, E. split; [reflexivity|].
    rewrite begin_run. simpl. auto.
Qed.

Lemma refetch_forces_fetch_witness :
  JS.truthy (globalData fresh_cache) = true /\
  1762041900000 - lastFetch fresh_cache <= CACHE_DURATION /\
  shouldFetch fresh_cache 1762041900000 = false /\
  effect 1762041900000 (exec refetch fresh_cache)
  = fetchGlobalData_begin (exec refetch fresh_cache) /\
  In (GetPortfolioDataOptimized "en")
     (events (effect 1762041900000) (exec refetch fresh_cache)).
Proof.
  split; [reflexivity|]. split; [discriminate|]. split; [reflexivity|].
  apply (proj2 (proj2 (refetch_forces_fetch fresh_cache)) 1762041900000).
  reflexivity.
Defined.

(** The bound on the clock is needed.  With the clock set inside the first
    half hour after the epoch (data fetched at minute 10, [refetch()] called,
    evaluation at minute 15) the timestamp 0 is no older than the cache
    duration, and the evaluation serves the cache. *)
Example refetch_at_epoch_start_serves_cache :
  run [Evaluate 599000; Settle (Fulfilled portfolioData) 600000;
       Evaluate 600001; Refetch; Evaluate 900000] mount
  = Some {| cache := {| globalData := portfolioData; loading := false;
                        error := JS.Null; lastFetch := 0;
                        isInitialLoad := false; showProgress := true |};
            inflight := 0;
            history := [LoggerData FetchingGlobalData; PreloadCriticalImages;
                        GetPortfolioDataOptimized "en";
                        LoggerData GlobalDataLoaded;
                        TrackDataFetch "global_portfolio_data";
                        PreloadDataImages portfolioData;
                        PreloadSectionImages "about";
                        PreloadSectionImages "awards";
                        PreloadSectionImages "education";
                        PreloadSectionImages "experience";
                        PreloadSectionImages "gallery";
                        PreloadSectionImages "organizations";
                        PreloadSectionImages "projects";
                        LoggerData UsingCachedGlobalData;
                        LoggerData UsingCachedGlobalData] |} /\
  shouldFetch
    (exec refetch {| globalData := portfolioData; loading := false;
                     error := JS.Null; lastFetch := 600000;
                     isInitialLoad := false; showProgress := true |})
    900000 = false.
Proof. split; reflexivity. Qed.

(** ** Consumer hooks *)

(** C8.  Below a provider, whose context value is the record
    [{data, loading, error, lastFetch, isInitialLoad, refetch}] built from the
    state cells, [useGlobalData] returns that record; where the context has
    no provider it throws the "must be used within a GlobalDataProvider"
    error.  The provider supplies the value whenever it renders its
    children. *)
Theorem useGlobalData_lookup (s : State) :
  (useGlobalData (Some (value s)) = inr (value s) /\
   Ctx.data (value s) = globalData s /\
   Ctx.loading (value s) = loading s /\
   Ctx.error (value s) = error s /\
   Ctx.lastFetch (value s) = lastFetch s /\
   Ctx.isInitialLoad (value s) = isInitialLoad s /\
   Ctx.refetch (value s) = setLastFetch 0) /\
  useGlobalData None
    = inl (Error "useGlobalData must be used within a GlobalDataProvider") /\
  (GlobalDataProvider s = ContextProvider (value s) \/
   GlobalDataProvider s = LoadingProgress handleProgressComplete /\
   isInitialLoad s = true /\ showProgress s = true).
Proof.
  repeat split.
  unfold GlobalDataProvider.
  destruct (isInitialLoad s), (showProgress s); simpl; auto.
Qed.

Lemma lookup_absent (k : string) (props : list (string * JS.Value)) :
  existsb (String.eqb k) (map fst props) = false ->
  JS.lookup k props = JS.Undefined.
Proof.
  induction props as [|[k' v] rest IH]; simpl; [reflexivity|].
  destruct (String.eqb k k'); simpl; [discriminate|exact IH].
Qed.

(** An own read of a property the value does not own gives [undefined]. *)
Lemma get_absent (d : JS.Value) (k : string) :
  JS.has_own d k = false -> JS.get_own d k = JS.Undefined.
Proof.
  unfold JS.has_own, JS.get_own, JS.keys.
  destruct d; try apply lookup_absent;
    (destruct (String.eqb k "length"); simpl; [discriminate|apply lookup_absent]).
Qed.

(** An own property shadows whatever the prototype chain holds. *)
Lemma get_of_own (h : JS.Host) (d : JS.Value) (k : string) :
  JS.has_own d k = true -> JS.get h d k = JS.get_own d k.
Proof. unfold JS.get. intros ->. reflexivity. Qed.

(** A name that is neither own nor inherited reads as [undefined]. *)
Lemma get_missing (h : JS.Host) (d : JS.Value) (k : string) :
  JS.has h d k = false -> JS.get h d k = JS.Undefined.
Proof.
  unfold JS.has, JS.get. intros H. apply orb_false_iff in H.
  destruct H as [-> H]. destruct (JS.inherited h d k); [discriminate|reflexivity].
Qed.

Lemma section_value_cases (h : JS.Host) (d : JS.Value) (name : string) :
  section_value h d name =
  match d with
  | JS.Undefined | JS.Null => JS.Null
  | _ => if JS.truthy (JS.get h d name) then JS.get h d name else JS.Null
  end.
Proof. destruct d; reflexivity. Qed.

(** C6, as the code has it.  With a provider above, [useSectionData] never
    throws, whatever the section name and whatever the host; it passes
    [loading] and [error] through and is a function of the context value
    alone.  Its [data] is what [data?.[sectionName] || null] evaluates to:
    [null] while the aggregate is not loaded; [null] when the name is neither
    an own field of the aggregate nor a member it inherits; the value read,
    own field or inherited member, when that value is truthy; and [null]
    when the value read is falsy, a present field holding a falsy value
    included.  An own field shadows an inherited member of the same name. *)
Theorem useSectionData_projection (h : JS.Host) (s : State) (name : string) :
  useSectionData h (Some (value s)) name
  = inr {| SectionData.data := section_value h (globalData s) name;
           SectionData.loading := loading s;
           SectionData.error := error s |} /\
  (globalData s = JS.Null \/ globalData s = JS.Undefined \/
   JS.has h (globalData s) name = false ->
   section_value h (globalData s) name = JS.Null) /\
  (globalData s <> JS.Null -> globalData s <> JS.Undefined ->
   JS.truthy (JS.get h (globalData s) name) = true ->
   section_value h (globalData s) name = JS.get h (globalData s) name /\
   section_value h (globalData s) name
   = section_value_by_presence h (globalData s) name) /\
  (JS.truthy (JS.get h (globalData s) name) = false ->
   section_value h (globalData s) name = JS.Null) /\
  (JS.has_own (globalData s) name = true ->
   JS.get h (globalData s) name = JS.get_own (globalData s) name).
Proof.
  split; [reflexivity|]. rewrite section_value_cases.
  split; [|split; [|split]].
  - intros [H|[H|H]].
    + rewrite H. reflexivity.
    + rewrite H. reflexivity.
    + rewrite (get_missing _ _ _ H). destruct (globalData s); reflexivity.
  - intros Hn Hu Ht. rewrite Ht.
    assert (Ho : JS.has h (globalData s) name = true).
    { destruct (JS.has h (globalData s) name) eqn:E; [reflexivity|].
      rewrite (get_missing _ _ _ E) in Ht. discriminate. }
    unfold section_value_by_presence. rewrite Ho.
    destruct (globalData s); try contradiction; auto.
  - intros Hf. rewrite Hf. destruct (globalData s); reflexivity.
  - apply get_of_own.
Qed.

Lemma useSectionData_projection_witness :
  section_value JS.plain_object_host (globalData cache_with_falsy_field) "home"
  = JS.Obj [("title", JS.Str "Your Name")] /\
  section_value JS.plain_object_host (globalData cache_with_falsy_field) "home"
  = section_value_by_presence JS.plain_object_host
      (globalData cache_with_falsy_field) "home".
Proof.
  apply (proj1 (proj2 (proj2
           (useSectionData_projection JS.plain_object_host
              cache_with_falsy_field "home"))));
    [discriminate | discriminate | reflexivity].
Defined.

(** C6 as stated fails on a field that is present with a falsy value: the
    field [featured] exists and holds [false], the presence reading promises
    [false], and the hook returns [null]. *)
Lemma useSectionData_presence_mismatch :
  JS.has_own (globalData cache_with_falsy_field) "featured" = true /\
  section_value_by_presence JS.plain_object_host
    (globalData cache_with_falsy_field) "featured"
  = JS.Bool false /\
  useSectionData JS.plain_object_host
    (Some (value cache_with_falsy_field)) "featured"
  = inr {| SectionData.data := JS.Null;
           SectionData.loading := false;
           SectionData.error := JS.Null |}.
Proof. repeat split. Qed.

(** On a plain object a section name that the aggregate does not own but
    [Object.prototype] has is answered with the inherited member; a name
    found nowhere is answered with [null]. *)
Example inherited_member_is_returned :
  useSectionData JS.plain_object_host
    (Some (value cache_with_falsy_field)) "constructor"
  = inr {| SectionData.data := JS.Builtin "Object";
           SectionData.loading := false;
           SectionData.error := JS.Null |} /\
  useSectionData JS.plain_object_host
    (Some (value cache_with_falsy_field)) "toString"
  = inr {| SectionData.data := JS.Builtin "Object.prototype.toString";
           SectionData.loading := false;
           SectionData.error := JS.Null |} /\
  useSectionData JS.plain_object_host
    (Some (value cache_with_falsy_field)) "__proto__"
  = inr {| SectionData.data := JS.Builtin "Object.prototype";
           SectionData.loading := false;
           SectionData.error := JS.Null |} /\
  useSectionData JS.plain_object_host
    (Some (value cache_with_falsy_field)) "projects"
  = inr {| SectionData.data := JS.Null;
           SectionData.loading := false;
           SectionData.error := JS.Null |}.
Proof. repeat split. Qed.

(** C9.  When the aggregate is loaded and owns field [name], but the field
    holds a falsy value, [useSectionData] reports [data = null] instead of
    that value, because the projection is [data?.[sectionName] || null].  The
    empty string, 0, [false] and [null] are such values. *)
Theorem falsy_section_collapses (h : JS.Host) (s : State) (name : string)
  (Hloaded : globalData s <> JS.Null /\ globalData s <> JS.Undefined)
  (Hpresent : JS.has_own (globalData s) name = true)
  (Hfalsy : JS.truthy (JS.get h (globalData s) name) = false) :
  useSectionData h (Some (value s)) name
  = inr {| SectionData.data := JS.Null;
           SectionData.loading := loading s;
           SectionData.error := error s |} /\
  Forall (fun v => JS.truthy v = false)
         [JS.Str ""; JS.Num 0; JS.Bool false; JS.Null].
Proof.
  split; [|repeat constructor].
  unfold useSectionData, useGlobalData, value. cbn [Ctx.data Ctx.loading Ctx.error].
  fold (section_value h (globalData s) name).
  rewrite section_value_cases, Hfalsy.
  destruct (globalData s); reflexivity.
Qed.

Lemma falsy_section_collapses_witness :
  useSectionData JS.plain_object_host
    (Some (value cache_with_falsy_field)) "featured"
  = inr {| SectionData.data := JS.Null;
           SectionData.loading := loading cache_with_falsy_field;
           SectionData.error := error cache_with_falsy_field |} /\
  Forall (fun v => JS.truthy v = false)
         [JS.Str ""; JS.Num 0; JS.Bool false; JS.Null].
Proof.
  apply (falsy_section_collapses JS.plain_object_host
           cache_with_falsy_field "featured").
  - split; discriminate.
  - reflexivity.
  - reflexivity.
Defined.

(** ** Invariants of the mounted provider *)

Lemma loaded_inv_initial : loaded_inv initialState.
Proof. unfold loaded_inv. simpl. discriminate. Qed.

Lemma step_cache (a : Action) (p p' : Provider) :
  step a p = Some p' ->
  cache p' =
  match a with
  | Evaluate now => exec (effect now) (cache p)
  | Settle r now => exec (fetchGlobalData_resume r now) (cache p)
  | Refetch => exec refetch (cache p)
  | ProgressComplete => exec handleProgressComplete (cache p)
  end.
Proof.
  destruct a; simpl; intros H.
  - injection H as <-. reflexivity.
  - destruct (inflight p); [discriminate|]. injection H as <-. reflexivity.
  - injection H as <-. reflexivity.
  - injection H as <-. reflexivity.
Qed.

Lemma exec_effect (now : Z) (s : State) :
  exec (effect now) s =
  if shouldFetch s now
  then {| globalData := globalData s; loading := true; error := JS.Null;
          lastFetch := lastFetch s; isInitialLoad := isInitialLoad s;
          showProgress := showProgress s |}
  else {| globalData := globalData s; loading := false; error := error s;
          lastFetch := lastFetch s; isInitialLoad := false;
          showProgress := showProgress s |}.
Proof.
  unfold exec. rewrite effect_run. destruct (shouldFetch s now); reflexivity.
Qed.

Lemma exec_resume (r : Settlement) (now : Z) (s : State) :
  exec (fetchGlobalData_resume r now) s =
  match r with
  | Fulfilled d =>
      {| globalData := d; loading := false; error := error s;
         lastFetch := now; isInitialLoad := false;
         showProgress := showProgress s |}
  | Rejected e =>
      {| globalData := globalData s; loading := false;
         error := JS.Str (JS.message e);
         lastFetch := lastFetch s; isInitialLoad := false;
         showProgress := showProgress s |}
  end.
Proof.
  unfold exec.
  destruct r; [rewrite resume_fulfilled_run | rewrite resume_rejected_run];
    reflexivity.
Qed.

Lemma step_loaded_inv (a : Action) (p p' : Provider) :
  step a p = Some p' -> loaded_inv (cache p) -> loaded_inv (cache p').
Proof.
  intros Hs Hi. rewrite (step_cache _ _ _ Hs). unfold loaded_inv in *.
  destruct a as [now|r now| |].
  - rewrite exec_effect. destruct (shouldFetch (cache p) now); simpl; auto.
  - rewrite exec_resume. destruct r; reflexivity.
  - exact Hi.
  - exact Hi.
Qed.

(** Only the resumption of a fetch sequence changes [isInitialLoad], and it
    clears it. *)
Lemma step_isInitialLoad (a : Action) (p p' : Provider) :
  step a p = Some p' -> loaded_inv (cache p) ->
  isInitialLoad (cache p') = isInitialLoad (cache p) && negb (is_settle a).
Proof.
  intros Hs Hi. rewrite (step_cache _ _ _ Hs).
  destruct a as [now|r now| |]; simpl.
  - rewrite exec_effect, andb_true_r.
    destruct (shouldFetch (cache p) now) eqn:E; [reflexivity|].
    apply shouldFetch_fresh in E. simpl. symmetry. apply Hi, E.
  - rewrite exec_resume, andb_false_r. destruct r; reflexivity.
  - rewrite andb_true_r. reflexivity.
  - rewrite andb_true_r. reflexivity.
Qed.

Lemma run_from (acts : list Action) (p0 p : Provider) :
  run acts p0 = Some p -> loaded_inv (cache p0) ->
  loaded_inv (cache p) /\
  isInitialLoad (cache p)
  = isInitialLoad (cache p0) && negb (existsb is_settle acts).
Proof.
  revert p0. induction acts as [|a acts IH]; simpl; intros p0 Hr Hi.
  - injection Hr as <-. rewrite andb_true_r. auto.
  - destruct (step a p0) as [p1|] eqn:Hs; [|discriminate].
    destruct (IH p1 Hr (step_loaded_inv _ _ _ Hs Hi)) as [Hl Hf].
    split; [exact Hl|].
    rewrite Hf, (step_isInitialLoad _ _ _ Hs Hi), negb_orb, andb_assoc.
    reflexivity.
Qed.

Lemma run_loaded_inv (acts : list Action) (p : Provider) :
  run acts mount = Some p -> loaded_inv (cache p).
Proof. intros H. exact (proj1 (run_from _ _ _ H loaded_inv_initial)). Qed.

(** C2.  Along every run of the mounted provider (evaluations, fetch
    completions, refetch calls, progress callbacks in any order),
    [isInitialLoad] starts true and is true exactly as long as no fetch
    sequence has completed: the step that clears it is the first completion,
    fulfilled or rejected alike, and no later step sets it again. *)
Theorem isInitialLoad_cleared_once (acts : list Action) (p : Provider)
  (Hrun : run acts mount = Some p) :
  isInitialLoad (cache mount) = true /\
  isInitialLoad (cache p) = negb (existsb is_settle acts) /\
  (forall a p', step a p = Some p' ->
     (isInitialLoad (cache p) = false -> isInitialLoad (cache p') = false) /\
     (isInitialLoad (cache p) = true ->
        (isInitialLoad (cache p') = false <-> exists r now, a = Settle r now))).
Proof.
  destruct (run_from _ _ _ Hrun loaded_inv_initial) as [Hl Hf].
  split; [reflexivity|]. split; [exact Hf|].
  intros a p' Hs. rewrite (step_isInitialLoad _ _ _ Hs Hl).
  split.
  - intros ->. reflexivity.
  - intros ->. simpl. destruct a as [now|r now| |]; simpl; split; intros H;
      try discriminate; try reflexivity;
      try (destruct H as (r' & now' & H); discriminate).
    exists r, now. reflexivity.
Qed.

Lemma isInitialLoad_cleared_once_witness :
  isInitialLoad
    {| globalData := JS.Null; loading := false; error := JS.Str "network unreachable";
       lastFetch := 0; isInitialLoad := false; showProgress := true |}
  = negb (existsb is_settle
            [Evaluate 1762041600000;
             Settle (Rejected (JS.mkError "network unreachable")) 1762041600050;
             Refetch]).
Proof.
  exact (proj1 (proj2
    (isInitialLoad_cleared_once
       [Evaluate 1762041600000;
        Settle (Rejected (JS.mkError "network unreachable")) 1762041600050;
        Refetch]
       {| cache := {| globalData := JS.Null; loading := false;
                      error := JS.Str "network unreachable"; lastFetch := 0;
                      isInitialLoad := false; showProgress := true |};
          inflight := 0;
          history := [LoggerData FetchingGlobalData; PreloadCriticalImages;
                      GetPortfolioDataOptimized "en";
                      LoggerError (JS.mkError "network unreachable")] |}
       eq_refl))).
Defined.

(** C10.  In every state reached from the mounted provider, in particular in
    every quiescent one, present data implies that [isInitialLoad] is already
    false.  Hence whenever the effect takes its non-stale branch, the
    [setIsInitialLoad(false)] it performs changes nothing: the run equals
    logging the cache hit and [setLoading(false)], and [isInitialLoad] is
    false before as after. *)
Theorem data_present_means_loaded (acts : list Action) (p : Provider)
  (Hrun : run acts mount = Some p) :
  (quiescent p -> JS.truthy (globalData (cache p)) = true ->
   isInitialLoad (cache p) = false) /\
  (JS.truthy (globalData (cache p)) = true -> isInitialLoad (cache p) = false) /\
  (forall now, shouldFetch (cache p) now = false ->
     isInitialLoad (cache p) = false /\
     isInitialLoad (exec (effect now) (cache p)) = isInitialLoad (cache p) /\
     effect now (cache p)
     = (emit (LoggerData UsingCachedGlobalData) ;; setLoading false) (cache p)).
Proof.
  pose proof (run_loaded_inv _ _ Hrun) as Hl.
  split; [intros _; exact Hl|]. split; [exact Hl|].
  intros now E.
  assert (Hf : isInitialLoad (cache p) = false).
  { apply Hl. apply shouldFetch_fresh in E. apply E. }
  split; [exact Hf|]. split.
  - rewrite exec_effect, E. simpl. symmetry. exact Hf.
  - rewrite effect_run, E.
    cbv beta iota delta [bind emit setLoading].
    rewrite Hf. rewrite app_nil_r. reflexivity.
Qed.

Lemma data_present_means_loaded_witness :
  isInitialLoad
    (cache {| cache := {| globalData := portfolioData; loading := false;
                          error := JS.Null; lastFetch := 1762041600050;
                          isInitialLoad := false; showProgress := true |};
              inflight := 0;
              history := [LoggerData FetchingGlobalData; PreloadCriticalImages;
                          GetPortfolioDataOptimized "en";
                          LoggerData GlobalDataLoaded;
                          TrackDataFetch "global_portfolio_data";
                          PreloadDataImages portfolioData;
                          PreloadSectionImages "about";
                          PreloadSectionImages "awards";
                          PreloadSectionImages "education";
                          PreloadSectionImages "experience";
                          PreloadSectionImages "gallery";
                          PreloadSectionImages "organizations";
                          PreloadSectionImages "projects"] |})
  = false.
Proof.
  refine (proj1
    (data_present_means_loaded
       [Evaluate 1762041600000; Settle (Fulfilled portfolioData) 1762041600050]
       _ eq_refl) eq_refl eq_refl).
Defined.

(** ** Scenarios of the specification *)

(** Mount with an empty cache, the data service answering with an aggregate:
    [loading] is true while the call is pending and false afterwards, the
    aggregate is stored, [isInitialLoad] is false and [error] is absent; the
    evaluation caused by the new data serves the cache. *)
Example mount_then_success :
  option_map cache (run [Evaluate 1762041600000] mount)
  = Some {| globalData := JS.Null; loading := true; error := JS.Null;
            lastFetch := 0; isInitialLoad := true; showProgress := true |} /\
  option_map cache
    (run [Evaluate 1762041600000;
          Settle (Fulfilled portfolioData) 1762041600050;
          Evaluate 1762041600051] mount)
  = Some {| globalData := portfolioData; loading := false; error := JS.Null;
            lastFetch := 1762041600050; isInitialLoad := false;
            showProgress := true |}.
Proof. split; reflexivity. Qed.

(** The data service rejecting with "network unreachable". *)
Example mount_then_failure :
  option_map cache
    (run [Evaluate 1762041600000;
          Settle (Rejected (JS.mkError "network unreachable")) 1762041600050]
       mount)
  = Some {| globalData := JS.Null; loading := false;
            error := JS.Str "network unreachable";
            lastFetch := 0; isInitialLoad := false; showProgress := true |}.
Proof. reflexivity. Qed.

(** The section accessor called with "projects" before any fetch completes. *)
Example projects_before_first_fetch (h : JS.Host) :
  useSectionData h (Some (value initialState)) "projects"
  = inr {| SectionData.data := JS.Null;
           SectionData.loading := true;
           SectionData.error := JS.Null |}.
Proof. reflexivity. Qed.

(** Arrays and strings enumerate their indices. *)
Example keys_of_array :
  JS.keys (JS.Arr [JS.Str "a"; JS.Null; JS.Num 7]) = ["0"; "1"; "2"] /\
  JS.get_own (JS.Arr [JS.Str "a"; JS.Null; JS.Num 7]) "2" = JS.Num 7 /\
  JS.get_own (JS.Arr [JS.Str "a"; JS.Null; JS.Num 7]) "length" = JS.Num 3 /\
  JS.keys (JS.Str "hi") = ["0"; "1"] /\
  JS.get_own (JS.Str "hi") "1" = JS.Str "i".
Proof. repeat split. Qed.

(** ** Runs of the provider: further invariants *)

Lemma step_inflight (a : Action) (p p' : Provider) :
  step a p = Some p' ->
  match a with
  | Evaluate now =>
      inflight p' = if shouldFetch (cache p) now then S (inflight p) else inflight p
  | Settle _ _ => inflight p = S (inflight p')
  | Refetch | ProgressComplete => inflight p' = inflight p
  end.
Proof.
  destruct a; simpl; intros H.
  - injection H as <-. reflexivity.
  - destruct (inflight p); [discriminate|]. injection H as <-. reflexivity.
  - injection H as <-. reflexivity.
  - injection H as <-. reflexivity.
Qed.

Lemma step_history (a : Action) (p p' : Provider) :
  step a p = Some p' ->
  history p' = history p ++
  match a with
  | Evaluate now => events (effect now) (cache p)
  | Settle r now => events (fetchGlobalData_resume r now) (cache p)
  | Refetch | ProgressComplete => []
  end.
Proof.
  destruct a; simpl; intros H.
  - injection H as <-. reflexivity.
  - destruct (inflight p); [discriminate|]. injection H as <-. reflexivity.
  - injection H as <-. reflexivity.
  - injection H as <-. reflexivity.
Qed.

Lemma step_showProgress (a : Action) (p p' : Provider) :
  step a p = Some p' ->
  showProgress (cache p') = showProgress (cache p) && negb (is_progress a).
Proof.
  intros Hs. rewrite (step_cache _ _ _ Hs).
  destruct a as [now|r now| |]; simpl.
  - rewrite exec_effect, andb_true_r.
    destruct (shouldFetch (cache p) now); reflexivity.
  - rewrite exec_resume, andb_true_r. destruct r; reflexivity.
  - rewrite andb_true_r. reflexivity.
  - rewrite andb_false_r. reflexivity.
Qed.

Lemma run_showProgress (acts : list Action) (p0 p : Provider) :
  run acts p0 = Some p ->
  showProgress (cache p)
  = showProgress (cache p0) && negb (existsb is_progress acts).
Proof.
  revert p0. induction acts as [|a acts IH]; simpl; intros p0 Hr.
  - injection Hr as <-. rewrite andb_true_r. reflexivity.
  - destruct (step a p0) as [p1|] eqn:Hs; [|discriminate].
    rewrite (IH p1 Hr), (step_showProgress _ _ _ Hs), negb_orb, andb_assoc.
    reflexivity.
Qed.

(** The provider shows the progress loader, and renders no consumer, until
    the first fetch sequence has completed or the loader has called
    [onComplete]; from then on it renders its children with the context
    value of the current state, and never goes back to the loader. *)
Theorem children_rendered_after_first_completion
  (acts : list Action) (p : Provider) (Hrun : run acts mount = Some p) :
  GlobalDataProvider (cache p)
  = if existsb is_settle acts || existsb is_progress acts
    then ContextProvider (value (cache p))
    else LoadingProgress handleProgressComplete.
Proof.
  unfold GlobalDataProvider.
  rewrite (proj2 (run_from _ _ _ Hrun loaded_inv_initial)).
  rewrite (run_showProgress _ _ _ Hrun). simpl.
  destruct (existsb is_settle acts), (existsb is_progress acts); reflexivity.
Qed.

Lemma children_rendered_after_first_completion_witness :
  GlobalDataProvider
    {| globalData := JS.Null; loading := true; error := JS.Null;
       lastFetch := 0; isInitialLoad := true; showProgress := false |}
  = ContextProvider
      (value {| globalData := JS.Null; loading := true; error := JS.Null;
                lastFetch := 0; isInitialLoad := true; showProgress := false |}).
Proof.
  exact (children_rendered_after_first_completion
           [Evaluate 1762041600000; ProgressComplete]
           {| cache := {| globalData := JS.Null; loading := true;
                          error := JS.Null; lastFetch := 0;
                          isInitialLoad := true; showProgress := false |};
              inflight := 1;
              history := [LoggerData FetchingGlobalData; PreloadCriticalImages;
                          GetPortfolioDataOptimized "en"] |}
           eq_refl).
Defined.

Lemma step_loading_inv (a : Action) (p p' : Provider) :
  step a p = Some p' -> loading_inv p \/ is_evaluate a = true -> loading_inv p'.
Proof.
  intros Hs Hi. unfold loading_inv in *.
  pose proof (step_inflight _ _ _ Hs) as Hn.
  rewrite (step_cache _ _ _ Hs).
  destruct a as [now|r now| |]; simpl in *.
  - rewrite exec_effect, Hn.
    destruct (shouldFetch (cache p) now); simpl; [lia|discriminate].
  - rewrite exec_resume. destruct r; simpl; discriminate.
  - rewrite Hn. destruct Hi as [Hi|Hi]; [exact Hi|discriminate].
  - rewrite Hn. destruct Hi as [Hi|Hi]; [exact Hi|discriminate].
Qed.

Lemma run_loading_inv (acts : list Action) (p0 p : Provider) :
  run acts p0 = Some p ->
  loading_inv p0 \/ existsb is_evaluate acts = true -> loading_inv p.
Proof.
  revert p0. induction acts as [|a acts IH]; simpl; intros p0 Hr Hi.
  - injection Hr as <-. destruct Hi as [Hi|Hi]; [exact Hi|discriminate].
  - destruct (step a p0) as [p1|] eqn:Hs; [|discriminate].
    apply (IH p1 Hr).
    destruct Hi as [Hi|Hi].
    + left. apply (step_loading_inv _ _ _ Hs). left. exact Hi.
    + apply orb_true_iff in Hi. destruct Hi as [Hi|Hi].
      * left. apply (step_loading_inv _ _ _ Hs). right. exact Hi.
      * right. exact Hi.
Qed.

Lemma run_before_effect (acts : list Action) (p0 p : Provider) :
  run acts p0 = Some p -> existsb is_evaluate acts = false ->
  inflight p0 = 0%nat ->
  inflight p = 0%nat /\ history p = history p0 /\
  loading (cache p) = loading (cache p0) /\
  globalData (cache p) = globalData (cache p0) /\
  error (cache p) = error (cache p0).
Proof.
  revert p0. induction acts as [|a acts IH]; simpl; intros p0 Hr He Hn.
  - injection Hr as <-. auto.
  - destruct (step a p0) as [p1|] eqn:Hs; [|discriminate].
    apply orb_false_iff in He. destruct He as [Ha He].
    pose proof (step_inflight _ _ _ Hs) as Hn1.
    pose proof (step_history _ _ _ Hs) as Hh1.
    pose proof (step_cache _ _ _ Hs) as Hc1.
    destruct a as [now|r now| |]; simpl in *; try discriminate; try lia.
    + rewrite app_nil_r in Hh1.
      destruct (IH p1 Hr He ltac:(lia)) as (H1 & H2 & H3 & H4 & H5).
      rewrite H1, H2, H3, H4, H5, Hh1, Hc1. auto.
    + rewrite app_nil_r in Hh1.
      destruct (IH p1 Hr He ltac:(lia)) as (H1 & H2 & H3 & H4 & H5).
      rewrite H1, H2, H3, H4, H5, Hh1, Hc1. auto.
Qed.

(** Once the effect has run at least once, [loading = true] implies that a
    fetch sequence is suspended at its [await].  Before the effect has run,
    the mounted provider already shows [loading = true] although no fetch
    has been started and no collaborator has been called. *)
Theorem loading_means_fetch_in_flight
  (acts : list Action) (p : Provider) (Hrun : run acts mount = Some p) :
  (existsb is_evaluate acts = true ->
   loading (cache p) = true -> (0 < inflight p)%nat) /\
  (existsb is_evaluate acts = false ->
   loading (cache p) = true /\ inflight p = 0%nat /\ history p = []).
Proof.
  split.
  - intros He. apply (run_loading_inv _ _ _ Hrun). right. exact He.
  - intros He.
    destruct (run_before_effect _ _ _ Hrun He eq_refl) as (H1 & H2 & H3 & _).
    rewrite H1, H2, H3. auto.
Qed.

Lemma loading_means_fetch_in_flight_witness : (0 < 1)%nat.
Proof.
  exact (proj1
    (loading_means_fetch_in_flight
       [Evaluate 1762041600000]
       {| cache := {| globalData := JS.Null; loading := true;
                      error := JS.Null; lastFetch := 0;
                      isInitialLoad := true; showProgress := true |};
          inflight := 1;
          history := [LoggerData FetchingGlobalData; PreloadCriticalImages;
                      GetPortfolioDataOptimized "en"] |}
       eq_refl) eq_refl eq_refl).
Defined.

(** ** What re-runs the effect *)

Lemma step_effect_deps (a : Action) (p p' : Provider) :
  step a p = Some p' ->
  effect_deps (cache p') =
  match a with
  | Settle (Fulfilled d) now => (d, now)
  | Refetch => (globalData (cache p), 0)
  | _ => effect_deps (cache p)
  end.
Proof.
  intros Hs. rewrite (step_cache _ _ _ Hs). unfold effect_deps.
  destruct a as [now|r now| |]; simpl.
  - rewrite exec_effect. destruct (shouldFetch (cache p) now); reflexivity.
  - rewrite exec_resume. destruct r; reflexivity.
  - reflexivity.
  - reflexivity.
Qed.

(** Only a fulfilled fetch and [refetch] write a cell of the effect's
    dependency array.  Starting a fetch, a rejected fetch, a cache hit and
    the progress callback leave [globalData] and [lastFetch] as they are, so
    none of them makes the effect run again: in particular a failed fetch is
    not retried.  [refetch] itself changes a dependency only when
    [lastFetch] is not already 0. *)
Theorem effect_deps_written_by_success_or_refetch
  (a : Action) (p p' : Provider)
  (Hstep : step a p = Some p')
  (Hnot_fulfilled : is_fulfilled a = false)
  (Hnot_refetch : a <> Refetch) :
  effect_deps (cache p') = effect_deps (cache p) /\
  (forall s, effect_deps (exec refetch s) = effect_deps s <-> lastFetch s = 0).
Proof.
  split.
  - rewrite (step_effect_deps _ _ _ Hstep).
    destruct a as [now|[d|e] now| |]; try reflexivity; try discriminate.
    contradiction.
  - intros s. unfold effect_deps, exec. rewrite refetch_run. simpl. split.
    + intros H. injection H as H. symmetry. exact H.
    + intros ->. reflexivity.
Qed.

Lemma effect_deps_written_by_success_or_refetch_witness :
  effect_deps
    {| globalData := JS.Null; loading := false;
       error := JS.Str "network unreachable"; lastFetch := 0;
       isInitialLoad := false; showProgress := true |}
  = effect_deps
      {| globalData := JS.Null; loading := true; error := JS.Null;
         lastFetch := 0; isInitialLoad := true; showProgress := true |}.
Proof.
  refine (proj1
    (effect_deps_written_by_success_or_refetch
       (Settle (Rejected (JS.mkError "network unreachable")) 1762041600050)
       {| cache := {| globalData := JS.Null; loading := true; error := JS.Null;
                      lastFetch := 0; isInitialLoad := true;
                      showProgress := true |};
          inflight := 1;
          history := [] |}
       {| cache := {| globalData := JS.Null; loading := false;
                      error := JS.Str "network unreachable"; lastFetch := 0;
                      isInitialLoad := false; showProgress := true |};
          inflight := 0;
          history := [LoggerError (JS.mkError "network unreachable")] |}
       eq_refl eq_refl _)).
  discriminate.
Defined.

(** While no fetch is fulfilled, a timestamp that is 0 stays 0 and the data
    stays what it was. *)
Lemma run_without_success (acts : list Action) (p0 p : Provider) :
  run acts p0 = Some p -> existsb is_fulfilled acts = false ->
  lastFetch (cache p0) = 0 ->
  globalData (cache p) = globalData (cache p0) /\ lastFetch (cache p) = 0.
Proof.
  revert p0. induction acts as [|a acts IH]; simpl; intros p0 Hr Hf H0.
  - injection Hr as <-. auto.
  - destruct (step a p0) as [p1|] eqn:Hs; [|discriminate].
    apply orb_false_iff in Hf. destruct Hf as [Ha Hf].
    pose proof (step_effect_deps _ _ _ Hs) as Hd. unfold effect_deps in Hd.
    assert (H1 : globalData (cache p1) = globalData (cache p0)
                 /\ lastFetch (cache p1) = 0).
    { destruct a as [now|[d|e] now| |]; simpl in Ha; try discriminate;
        injection Hd as Hg Hl; rewrite Hg; split; congruence. }
    destruct H1 as [Hg Hl]. destruct (IH p1 Hr Hf Hl) as [Hg' Hl'].
    split; congruence.
Qed.

(** Until some fetch has been fulfilled, the data is [null] and the timestamp
    is 0, so [refetch()] rewrites 0 over 0: it changes no state cell, hence
    no dependency of the effect, and the data counts as stale at every clock
    reading.  After a first fetch that failed, calling [refetch()] is
    therefore not what starts a new fetch. *)
Theorem refetch_before_first_success_changes_nothing
  (acts : list Action) (p : Provider)
  (Hrun : run acts mount = Some p)
  (Hnone : existsb is_fulfilled acts = false) :
  globalData (cache p) = JS.Null /\
  lastFetch (cache p) = 0 /\
  exec refetch (cache p) = cache p /\
  events refetch (cache p) = [] /\
  forall now, shouldFetch (cache p) now = true.
Proof.
  destruct (run_without_success _ _ _ Hrun Hnone eq_refl) as [Hg Hl].
  simpl in Hg. repeat split; try assumption.
  - unfold exec. rewrite refetch_run. simpl. rewrite <- Hl.
    destruct (cache p); reflexivity.
  - intros now. unfold shouldFetch. rewrite Hg. reflexivity.
Qed.

Lemma refetch_before_first_success_changes_nothing_witness :
  exec refetch
    {| globalData := JS.Null; loading := false;
       error := JS.Str "network unreachable"; lastFetch := 0;
       isInitialLoad := false; showProgress := true |}
  = {| globalData := JS.Null; loading := false;
       error := JS.Str "network unreachable"; lastFetch := 0;
       isInitialLoad := false; showProgress := true |}.
Proof.
  exact (proj1 (proj2 (proj2
    (refetch_before_first_success_changes_nothing
       [Evaluate 1762041600000;
        Settle (Rejected (JS.mkError "network unreachable")) 1762041600050]
       {| cache := {| globalData := JS.Null; loading := false;
                      error := JS.Str "network unreachable"; lastFetch := 0;
                      isInitialLoad := false; showProgress := true |};
          inflight := 0;
          history := [LoggerData FetchingGlobalData; PreloadCriticalImages;
                      GetPortfolioDataOptimized "en";
                      LoggerError (JS.mkError "network unreachable")] |}
       eq_refl eq_refl)))).
Defined.

(** After [refetch()] the timestamp stays 0, and the old data stays in place,
    until a fetch is fulfilled: steps in between, a rejected fetch included,
    write neither.  In that window every run of the effect at a clock reading
    above [CACHE_DURATION] starts one more fetch sequence, with the old data
    still exposed and [loading] set to true. *)
Theorem refetch_pending_until_success
  (acts : list Action) (p p' : Provider)
  (Hrun : run (Refetch :: acts) p = Some p')
  (Hnone : existsb is_fulfilled acts = false) :
  globalData (cache p') = globalData (cache p) /\
  lastFetch (cache p') = 0 /\
  forall now, CACHE_DURATION < now ->
    shouldFetch (cache p') now = true /\
    globalData (exec (effect now) (cache p')) = globalData (cache p) /\
    loading (exec (effect now) (cache p')) = true /\
    error (exec (effect now) (cache p')) = JS.Null.
Proof.
  simpl in Hrun.
  destruct (run_without_success acts (perform refetch (inflight p) p) p'
              Hrun Hnone eq_refl) as [Hg Hl].
  simpl in Hg. split; [exact Hg|]. split; [exact Hl|].
  intros now Hnow.
  assert (E : shouldFetch (cache p') now = true).
  { unfold shouldFetch. rewrite Hl, Z.sub_0_r.
    apply orb_true_iff. right. apply Z.gtb_gt. lia. }
  rewrite exec_effect, E. simpl. auto.
Qed.

Lemma refetch_pending_until_success_witness :
  globalData
    {| globalData := portfolioData; loading := false;
       error := JS.Str "network unreachable"; lastFetch := 0;
       isInitialLoad := false; showProgress := true |}
  = portfolioData.
Proof.
  exact (proj1
    (refetch_pending_until_success
       [Evaluate 1762041700000;
        Settle (Rejected (JS.mkError "network unreachable")) 1762041700050]
       {| cache := {| globalData := portfolioData; loading := false;
                      error := JS.Null; lastFetch := 1762041600050;
                      isInitialLoad := false; showProgress := true |};
          inflight := 0; history := [] |}
       {| cache := {| globalData := portfolioData; loading := false;
                      error := JS.Str "network unreachable"; lastFetch := 0;
                      isInitialLoad := false; showProgress := true |};
          inflight := 0;
          history := [LoggerData FetchingGlobalData; PreloadCriticalImages;
                      GetPortfolioDataOptimized "en";
                      LoggerError (JS.mkError "network unreachable")] |}
       eq_refl eq_refl)).
Defined.

(** ** Collaborator calls over a whole run *)

Lemma events_effect (now : Z) (s : State) :
  events (effect now) s =
  if shouldFetch s now
  then [LoggerData FetchingGlobalData; PreloadCriticalImages;
        GetPortfolioDataOptimized "en"]
  else [LoggerData UsingCachedGlobalData].
Proof.
  unfold events. rewrite effect_run. destruct (shouldFetch s now); reflexivity.
Qed.

Lemma events_resume (r : Settlement) (now : Z) (s : State) :
  events (fetchGlobalData_resume r now) s =
  match r with
  | Fulfilled d =>
      [LoggerData GlobalDataLoaded; TrackDataFetch "global_portfolio_data"]
        ++ data_preloads d
  | Rejected e => [LoggerError e]
  end.
Proof.
  unfold events.
  destruct r; [rewrite resume_fulfilled_run | rewrite resume_rejected_run];
    reflexivity.
Qed.

Lemma count_app {A} (f : A -> bool) (l1 l2 : list A) :
  count f (l1 ++ l2) = (count f l1 + count f l2)%nat.
Proof. unfold count. rewrite filter_app, length_app. reflexivity. Qed.

Lemma count_data_preloads (f : Event -> bool) (d : JS.Value) :
  (forall v, f (PreloadDataImages v) = false) ->
  (forall k, f (PreloadSectionImages k) = false) ->
  count f (data_preloads d) = 0%nat.
Proof.
  intros Hd Hk. unfold data_preloads, count.
  destruct (JS.truthy d); [|reflexivity].
  simpl. rewrite Hd. unfold section_preloads.
  induction (filter preloadable (JS.keys d)) as [|k ks IH]; [reflexivity|].
  simpl. rewrite Hk. exact IH.
Qed.

Lemma step_counts (a : Action) (p p' : Provider) :
  step a p = Some p' ->
  (count is_service_call (history p') + inflight p
   = count is_service_call (history p) + inflight p'
     + (if is_settle a then 1 else 0))%nat /\
  (count is_critical_preload (history p') + count is_service_call (history p)
   = count is_critical_preload (history p) + count is_service_call (history p'))%nat /\
  count is_tracker_report (history p')
  = (count is_tracker_report (history p) + (if is_fulfilled a then 1 else 0))%nat /\
  count is_error_log (history p')
  = (count is_error_log (history p) + (if is_rejected a then 1 else 0))%nat.
Proof.
  intros Hs.
  pose proof (step_inflight _ _ _ Hs) as Hn.
  rewrite (step_history _ _ _ Hs), !count_app.
  destruct a as [now|r now| |]; simpl in *.
  - rewrite events_effect, Hn.
    destruct (shouldFetch (cache p) now); cbn; lia.
  - rewrite events_resume, Hn. destruct r as [d|e].
    + rewrite !count_app, !count_data_preloads by reflexivity. cbn. lia.
    + cbn. lia.
  - rewrite Hn. cbn. lia.
  - rewrite Hn. cbn. lia.
Qed.

Lemma run_counts (acts : list Action) (p0 p : Provider) :
  run acts p0 = Some p ->
  (count is_service_call (history p) + inflight p0
   = count is_service_call (history p0) + inflight p + count is_settle acts)%nat /\
  (count is_critical_preload (history p) + count is_service_call (history p0)
   = count is_critical_preload (history p0) + count is_service_call (history p))%nat /\
  count is_tracker_report (history p)
  = (count is_tracker_report (history p0) + count is_fulfilled acts)%nat /\
  count is_error_log (history p)
  = (count is_error_log (history p0) + count is_rejected acts)%nat.
Proof.
  revert p0. induction acts as [|a acts IH]; intros p0 Hr.
  - injection Hr as <-. cbn. lia.
  - simpl in Hr. destruct (step a p0) as [p1|] eqn:Hs; [|discriminate].
    destruct (IH p1 Hr) as (I1 & I2 & I3 & I4).
    destruct (step_counts _ _ _ Hs) as (S1 & S2 & S3 & S4).
    unfold count in *. cbn [filter].
    destruct (is_settle a), (is_fulfilled a), (is_rejected a);
      cbn [List.length]; lia.
Qed.

(** Over every run from the mount: the data service has been called once
    per fetch sequence started (those still suspended plus those completed),
    each call paired with one critical-image preload; the performance
    tracker has been called once per fulfilled fetch and never for a rejected
    one; [logger.error] has been called once per rejected fetch. *)
Theorem collaborator_calls_per_fetch
  (acts : list Action) (p : Provider) (Hrun : run acts mount = Some p) :
  count is_service_call (history p) = (inflight p + count is_settle acts)%nat /\
  count is_critical_preload (history p) = count is_service_call (history p) /\
  count is_tracker_report (history p) = count is_fulfilled acts /\
  count is_error_log (history p) = count is_rejected acts.
Proof.
  destruct (run_counts _ _ _ Hrun) as (H1 & H2 & H3 & H4).
  cbn in H1, H2, H3, H4. lia.
Qed.

Lemma collaborator_calls_per_fetch_witness :
  count is_tracker_report
    [LoggerData FetchingGlobalData; PreloadCriticalImages;
     GetPortfolioDataOptimized "en";
     LoggerData FetchingGlobalData; PreloadCriticalImages;
     GetPortfolioDataOptimized "en";
     LoggerError (JS.mkError "network unreachable")]
  = count is_fulfilled
      [Evaluate 1762041600000; Evaluate 1762041600001;
       Settle (Rejected (JS.mkError "network unreachable")) 1762041600050].
Proof.
  exact (proj1 (proj2 (proj2
    (collaborator_calls_per_fetch
       [Evaluate 1762041600000; Evaluate 1762041600001;
        Settle (Rejected (JS.mkError "network unreachable")) 1762041600050]
       {| cache := {| globalData := JS.Null; loading := false;
                      error := JS.Str "network unreachable"; lastFetch := 0;
                      isInitialLoad := false; showProgress := true |};
          inflight := 1;
          history := [LoggerData FetchingGlobalData; PreloadCriticalImages;
                      GetPortfolioDataOptimized "en";
                      LoggerData FetchingGlobalData; PreloadCriticalImages;
                      GetPortfolioDataOptimized "en";
                      LoggerError (JS.mkError "network unreachable")] |}
       eq_refl)))).
Defined.

Lemma data_preloads_well_addressed (d : JS.Value) :
  forallb well_addressed (data_preloads d) = true.
Proof.
  unfold data_preloads. destruct (JS.truthy d) eqn:E; [|reflexivity].
  simpl. rewrite E. simpl. unfold section_preloads.
  rewrite forallb_forall. intros e He.
  apply in_map_iff in He. destruct He as (k & <- & Hk).
  apply filter_In in Hk. exact (proj2 Hk).
Qed.

Lemma run_well_addressed (acts : list Action) (p0 p : Provider) :
  run acts p0 = Some p ->
  forallb well_addressed (history p0) = true ->
  forallb well_addressed (history p) = true.
Proof.
  revert p0. induction acts as [|a acts IH]; simpl; intros p0 Hr H0.
  - injection Hr as <-. exact H0.
  - destruct (step a p0) as [p1|] eqn:Hs; [|discriminate].
    apply (IH p1 Hr). rewrite (step_history _ _ _ Hs), forallb_app, H0. simpl.
    destruct a as [now|r now| |]; try reflexivity.
    + rewrite events_effect. destruct (shouldFetch (cache p0) now); reflexivity.
    + rewrite events_resume. destruct r as [d|e]; [|reflexivity].
      rewrite forallb_app, data_preloads_well_addressed. reflexivity.
Qed.

(** Whatever the run, the hook never calls the data service with a locale
    other than "en", never reports a measurement under another label than
    "global_portfolio_data", never asks for the images of a falsy aggregate,
    and never asks for the section images of "home" or "contact". *)
Theorem collaborators_never_misaddressed
  (acts : list Action) (p : Provider) (Hrun : run acts mount = Some p) :
  (forall locale, In (GetPortfolioDataOptimized locale) (history p) ->
                  locale = "en") /\
  (forall label, In (TrackDataFetch label) (history p) ->
                 label = "global_portfolio_data") /\
  (forall d, In (PreloadDataImages d) (history p) -> JS.truthy d = true) /\
  (forall k, In (PreloadSectionImages k) (history p) ->
             k <> "home" /\ k <> "contact").
Proof.
  pose proof (run_well_addressed _ _ _ Hrun eq_refl) as H.
  rewrite forallb_forall in H.
  repeat split.
  - intros locale Hi. apply H in Hi. apply String.eqb_eq. exact Hi.
  - intros label Hi. apply H in Hi. apply String.eqb_eq. exact Hi.
  - intros d Hi. apply H in Hi. exact Hi.
  - intros ->. apply H in H0. discriminate.
  - intros ->. apply H in H0. discriminate.
Qed.

Lemma collaborators_never_misaddressed_witness :
  "gallery" <> "home" /\ "gallery" <> "contact".
Proof.
  refine (proj2 (proj2 (proj2
    (collaborators_never_misaddressed
       [Evaluate 1762041600000;
        Settle (Fulfilled (JS.Obj [("home", JS.Obj []); ("gallery", JS.Arr [])]))
               1762041600050]
       {| cache := {| globalData := JS.Obj [("home", JS.Obj []); ("gallery", JS.Arr [])];
                      loading := false; error := JS.Null;
                      lastFetch := 1762041600050;
                      isInitialLoad := false; showProgress := true |};
          inflight := 0;
          history := [LoggerData FetchingGlobalData; PreloadCriticalImages;
                      GetPortfolioDataOptimized "en";
                      LoggerData GlobalDataLoaded;
                      TrackDataFetch "global_portfolio_data";
                      PreloadDataImages
                        (JS.Obj [("home", JS.Obj []); ("gallery", JS.Arr [])]);
                      PreloadSectionImages "gallery"] |}
       eq_refl))) "gallery" _).
  simpl. tauto.
Defined.

(** ** Repeated runs of the effect *)

Lemma step_evaluate (now : Z) (p : Provider) :
  step (Evaluate now) p
  = Some {| cache := exec (effect now) (cache p);
            inflight := if shouldFetch (cache p) now
                        then S (inflight p) else inflight p;
            history := history p ++ events (effect now) (cache p) |}.
Proof. reflexivity. Qed.

(** The effect has no guard on [loading] or on a fetch already in flight:
    as long as the data is absent, each run of the effect, at whatever clock
    reading, starts one more fetch sequence and calls the data service once
    more. *)
Theorem absent_data_refetched_on_every_run
  (p : Provider) (times : list Z) (Habsent : absent (globalData (cache p))) :
  exists p',
    run (map Evaluate times) p = Some p' /\
    inflight p' = (inflight p + List.length times)%nat /\
    count is_service_call (history p')
    = (count is_service_call (history p) + List.length times)%nat /\
    globalData (cache p') = globalData (cache p) /\
    lastFetch (cache p') = lastFetch (cache p).
Proof.
  revert p Habsent. induction times as [|t times IH]; intros p Habsent.
  - exists p. simpl. repeat split; lia.
  - assert (E : shouldFetch (cache p) t = true).
    { apply shouldFetch_stale. left. exact Habsent. }
    cbn [map run]. rewrite step_evaluate, E.
    set (p1 := {| cache := exec (effect t) (cache p);
                  inflight := S (inflight p);
                  history := history p ++ events (effect t) (cache p) |}).
    assert (Hc : cache p1 = exec (effect t) (cache p)) by reflexivity.
    assert (Hg : globalData (cache p1) = globalData (cache p)).
    { rewrite Hc, exec_effect, E. reflexivity. }
    assert (Hl : lastFetch (cache p1) = lastFetch (cache p)).
    { rewrite Hc, exec_effect, E. reflexivity. }
    destruct (IH p1) as (p' & Hr & Hn & Hk & Hg' & Hl').
    { unfold absent. rewrite Hg. exact Habsent. }
    exists p'. split; [exact Hr|].
    rewrite Hn, Hk, Hg', Hl', Hg, Hl. subst p1. cbn [inflight history].
    rewrite count_app, events_effect, E. cbn. repeat split; lia.
Qed.

Lemma absent_data_refetched_on_every_run_witness :
  exists p',
    run (map Evaluate [1762041600000; 1762041600001]) mount = Some p' /\
    inflight p' = (inflight mount + 2)%nat /\
    count is_service_call (history p')
    = (count is_service_call (history mount) + 2)%nat /\
    globalData (cache p') = globalData (cache mount) /\
    lastFetch (cache p') = lastFetch (cache mount).
Proof.
  exact (absent_data_refetched_on_every_run
           mount [1762041600000; 1762041600001] eq_refl).
Defined.

(** With data present, runs of the effect at clock readings within
    [CACHE_DURATION] of [lastFetch] start nothing, however many there are:
    no fetch sequence, no call other than the cache-hit log line, and data,
    timestamp and error stay as they are. *)
Theorem fresh_data_served_on_every_run
  (p : Provider) (times : list Z)
  (Hpresent : JS.truthy (globalData (cache p)) = true)
  (Hfresh : Forall (fun t => t - lastFetch (cache p) <= CACHE_DURATION) times) :
  exists p',
    run (map Evaluate times) p = Some p' /\
    inflight p' = inflight p /\
    history p'
    = history p ++ repeat (LoggerData UsingCachedGlobalData) (List.length times) /\
    effect_deps (cache p') = effect_deps (cache p) /\
    error (cache p') = error (cache p).
Proof.
  revert p Hpresent Hfresh.
  induction times as [|t times IH]; intros p Hpresent Hfresh.
  - exists p. simpl. rewrite app_nil_r. auto.
  - inversion Hfresh as [|t' times' Ht Hrest]; subst.
    assert (E : shouldFetch (cache p) t = false).
    { apply shouldFetch_fresh. auto. }
    cbn [map run]. rewrite step_evaluate, E.
    set (p1 := {| cache := exec (effect t) (cache p);
                  inflight := inflight p;
                  history := history p ++ events (effect t) (cache p) |}).
    assert (Hc : cache p1 = exec (effect t) (cache p)) by reflexivity.
    assert (Hg : globalData (cache p1) = globalData (cache p)).
    { rewrite Hc, exec_effect, E. reflexivity. }
    assert (Hl : lastFetch (cache p1) = lastFetch (cache p)).
    { rewrite Hc, exec_effect, E. reflexivity. }
    assert (He : error (cache p1) = error (cache p)).
    { rewrite Hc, exec_effect, E. reflexivity. }
    destruct (IH p1) as (p' & Hr & Hn & Hh & Hd' & He').
    { rewrite Hg. exact Hpresent. }
    { rewrite Hl. exact Hrest. }
    exists p'. split; [exact Hr|].
    rewrite Hn, Hh, Hd', He', He. unfold effect_deps. rewrite Hg, Hl.
    subst p1. cbn [inflight history].
    rewrite events_effect, E, <- app_assoc. auto.
Qed.

Lemma fresh_data_served_on_every_run_witness :
  exists p',
    run (map Evaluate [1762041600060; 1762043400050])
        {| cache := {| globalData := portfolioData; loading := false;
                       error := JS.Null; lastFetch := 1762041600050;
                       isInitialLoad := false; showProgress := true |};
           inflight := 0; history := [] |} = Some p' /\
    inflight p' = 0%nat /\
    history p'
    = [] ++ repeat (LoggerData UsingCachedGlobalData) 2 /\
    effect_deps (cache p') = (portfolioData, 1762041600050) /\
    error (cache p') = JS.Null.
Proof.
  apply (fresh_data_served_on_every_run
           {| cache := {| globalData := portfolioData; loading := false;
                          error := JS.Null; lastFetch := 1762041600050;
                          isInitialLoad := false; showProgress := true |};
              inflight := 0; history := [] |}
           [1762041600060; 1762043400050]).
  - reflexivity.
  - repeat constructor; unfold CACHE_DURATION; simpl; lia.
Defined.

(** ** Where the exposed values come from *)

Lemma run_error_source (acts : list Action) (p0 p : Provider) :
  run acts p0 = Some p ->
  error (cache p) = error (cache p0) \/
  error (cache p) = JS.Null \/
  exists e now, In (Settle (Rejected e) now) acts /\
                error (cache p) = JS.Str (JS.message e).
Proof.
  revert p0. induction acts as [|a acts IH]; simpl; intros p0 Hr.
  - injection Hr as <-. auto.
  - destruct (step a p0) as [p1|] eqn:Hs; [|discriminate].
    destruct (IH p1 Hr) as [H|[H|(e & now & Hi & H)]].
    + rewrite H, (step_cache _ _ _ Hs).
      destruct a as [t|[d|e] t| |].
      * rewrite exec_effect. destruct (shouldFetch (cache p0) t); auto.
      * rewrite exec_resume. auto.
      * rewrite exec_resume. right. right. exists e, t. auto.
      * auto.
      * auto.
    + auto.
    + right. right. exists e, now. auto.
Qed.

(** The exposed [error] is [null] or the message of a fetch rejection that
    happened earlier in the run; nothing else is ever stored in it.  While no
    fetch has been rejected it is [null]. *)
Theorem error_is_a_rejection_message
  (acts : list Action) (p : Provider) (Hrun : run acts mount = Some p) :
  (error (cache p) = JS.Null \/
   exists e now, In (Settle (Rejected e) now) acts /\
                 error (cache p) = JS.Str (JS.message e)) /\
  (existsb is_rejected acts = false -> error (cache p) = JS.Null).
Proof.
  assert (H : error (cache p) = JS.Null \/
              exists e now, In (Settle (Rejected e) now) acts /\
                            error (cache p) = JS.Str (JS.message e)).
  { destruct (run_error_source _ _ _ Hrun) as [H|[H|H]]; auto. }
  split; [exact H|].
  intros Hn. destruct H as [H|(e & now & Hi & _)]; [exact H|].
  assert (Hc : existsb is_rejected acts = true).
  { apply existsb_exists. exists (Settle (Rejected e) now). auto. }
  congruence.
Qed.

Lemma error_is_a_rejection_message_witness :
  error {| globalData := portfolioData; loading := false; error := JS.Null;
           lastFetch := 1762041600050; isInitialLoad := false;
           showProgress := true |} = JS.Null.
Proof.
  exact (proj2
    (error_is_a_rejection_message
       [Evaluate 1762041600000; Settle (Fulfilled portfolioData) 1762041600050]
       {| cache := {| globalData := portfolioData; loading := false;
                      error := JS.Null; lastFetch := 1762041600050;
                      isInitialLoad := false; showProgress := true |};
          inflight := 0;
          history := [LoggerData FetchingGlobalData; PreloadCriticalImages;
                      GetPortfolioDataOptimized "en";
                      LoggerData GlobalDataLoaded;
                      TrackDataFetch "global_portfolio_data";
                      PreloadDataImages portfolioData;
                      PreloadSectionImages "about";
                      PreloadSectionImages "awards";
                      PreloadSectionImages "education";
                      PreloadSectionImages "experience";
                      PreloadSectionImages "gallery";
                      PreloadSectionImages "organizations";
                      PreloadSectionImages "projects"] |}
       eq_refl) eq_refl).
Defined.

Lemma run_data_source (acts : list Action) (p0 p : Provider) :
  run acts p0 = Some p ->
  (globalData (cache p) = globalData (cache p0) \/
   exists now, In (Settle (Fulfilled (globalData (cache p))) now) acts) /\
  (lastFetch (cache p) = 0 \/
   effect_deps (cache p) = effect_deps (cache p0) \/
   In (Settle (Fulfilled (globalData (cache p))) (lastFetch (cache p))) acts).
Proof.
  revert p0. induction acts as [|a acts IH]; simpl; intros p0 Hr.
  - injection Hr as <-. auto.
  - destruct (step a p0) as [p1|] eqn:Hs; [|discriminate].
    destruct (IH p1 Hr) as [Hd Ht].
    pose proof (step_effect_deps _ _ _ Hs) as Hs1.
    assert (Hg1 : globalData (cache p1) = fst (effect_deps (cache p1)))
      by reflexivity.
    assert (Hl1 : lastFetch (cache p1) = snd (effect_deps (cache p1)))
      by reflexivity.
    rewrite Hs1 in Hg1, Hl1.
    split.
    + destruct Hd as [Hd|(now & Hd)]; [|right; exists now; auto].
      destruct a as [t|[d|e] t| |]; simpl in Hg1;
        try (left; congruence).
      right. exists t. left. congruence.
    + destruct Ht as [Ht|[Ht|Ht]]; [auto| |auto].
      assert (Hg : globalData (cache p) = globalData (cache p1))
        by (unfold effect_deps in Ht; congruence).
      assert (Hl : lastFetch (cache p) = lastFetch (cache p1))
        by (unfold effect_deps in Ht; congruence).
      destruct a as [t|[d|e] t| |]; simpl in Hg1, Hl1;
        try (right; left; unfold effect_deps; congruence).
      * right. right. left. congruence.
      * left. congruence.
Qed.

(** The exposed data is [null] or, as a whole, the payload of a fetch
    fulfilled earlier in the run: the hook never edits an aggregate.  A
    non-zero [lastFetch] is the completion time of the very fetch that
    delivered the data now exposed, so the age the effect computes is the age
    of that data. *)
Theorem data_is_a_fetched_payload
  (acts : list Action) (p : Provider) (Hrun : run acts mount = Some p) :
  (globalData (cache p) = JS.Null \/
   exists now, In (Settle (Fulfilled (globalData (cache p))) now) acts) /\
  (lastFetch (cache p) = 0 \/
   In (Settle (Fulfilled (globalData (cache p))) (lastFetch (cache p))) acts).
Proof.
  destruct (run_data_source _ _ _ Hrun) as [Hd Ht]. split.
  - exact Hd.
  - destruct Ht as [Ht|[Ht|Ht]]; auto.
    left. unfold effect_deps in Ht. injection Ht as _ Hl. exact Hl.
Qed.

Lemma data_is_a_fetched_payload_witness :
  lastFetch {| globalData := portfolioData; loading := false; error := JS.Null;
               lastFetch := 1762041600050; isInitialLoad := false;
               showProgress := true |} = 0 \/
  In (Settle (Fulfilled portfolioData) 1762041600050)
     [Evaluate 1762041600000; Settle (Fulfilled portfolioData) 1762041600050].
Proof.
  exact (proj2
    (data_is_a_fetched_payload
       [Evaluate 1762041600000; Settle (Fulfilled portfolioData) 1762041600050]
       {| cache := {| globalData := portfolioData; loading := false;
                      error := JS.Null; lastFetch := 1762041600050;
                      isInitialLoad := false; showProgress := true |};
          inflight := 0;
          history := [LoggerData FetchingGlobalData; PreloadCriticalImages;
                      GetPortfolioDataOptimized "en";
                      LoggerData GlobalDataLoaded;
                      TrackDataFetch "global_portfolio_data";
                      PreloadDataImages portfolioData;
                      PreloadSectionImages "about";
                      PreloadSectionImages "awards";
                      PreloadSectionImages "education";
                      PreloadSectionImages "experience";
                      PreloadSectionImages "gallery";
                      PreloadSectionImages "organizations";
                      PreloadSectionImages "projects"] |}
       eq_refl)).
Defined.

(** ** Aggregates that conform to the data contract *)

Example sample_conforms : TS.conforms TS.PortfolioData TS.portfolioData = true.
Proof. reflexivity. Qed.

Lemma conforms_required_field
  (fields : list (string * (bool * TS.Ty))) (v : JS.Value)
  (name : string) (ty : TS.Ty) :
  TS.conforms (TS.TObject fields) v = true ->
  In (TS.req name ty) fields ->
  JS.has_own v name = true /\ TS.conforms ty (JS.get_own v name) = true.
Proof.
  intros Hc Hi. cbn [TS.conforms] in Hc.
  destruct v; try discriminate.
  rewrite forallb_forall in Hc. specialize (Hc _ Hi).
  unfold TS.req in Hc.
  destruct (JS.has_own (JS.Obj props) name); [|discriminate].
  rewrite andb_false_l, orb_false_r in Hc. auto.
Qed.

Lemma conforms_structured_truthy (ty : TS.Ty) (v : JS.Value) :
  TS.conforms ty v = true -> ty <> TS.TString ->
  JS.truthy v = true /\ v <> JS.Null /\ v <> JS.Undefined.
Proof.
  intros Hc Hn.
  destruct ty; [contradiction| |]; destruct v; try discriminate;
    repeat split; discriminate.
Qed.

Lemma section_is_structured (name : string) :
  In name TS.section_names ->
  exists ty, In (TS.req name ty) TS.PortfolioData_fields /\ ty <> TS.TString.
Proof.
  unfold TS.section_names. intros Hi.
  apply in_map_iff in Hi. destruct Hi as ([k [o ty]] & <- & Hi).
  exists ty. cbv [TS.PortfolioData_fields TS.req In] in Hi.
  repeat (destruct Hi as [Hi|Hi];
          [injection Hi as <- <- <-;
           split; [cbv [TS.PortfolioData_fields TS.req In]; tauto
                  |cbv; discriminate]|]).
  contradiction.
Qed.

(** For an aggregate that conforms to the [PortfolioData] interface, every
    one of its eight sections is an object or an array, hence truthy: the
    section accessor returns the field itself, never [null], and agrees with
    the plain presence reading of the projection. *)
Theorem conforming_sections_are_returned
  (h : JS.Host) (s : State) (name : string)
  (Hconforms : TS.conforms TS.PortfolioData (globalData s) = true)
  (Hsection : In name TS.section_names) :
  useSectionData h (Some (value s)) name
  = inr {| SectionData.data := JS.get h (globalData s) name;
           SectionData.loading := loading s;
           SectionData.error := error s |} /\
  JS.get h (globalData s) name <> JS.Null /\
  JS.get h (globalData s) name
  = section_value_by_presence h (globalData s) name.
Proof.
  destruct (section_is_structured _ Hsection) as (ty & Hf & Hty).
  destruct (conforms_required_field _ _ _ _ Hconforms Hf) as [Ho Hc].
  rewrite <- (get_of_own h _ _ Ho) in Hc.
  destruct (conforms_structured_truthy _ _ Hc Hty) as (Ht & Hn & _).
  assert (Hv : section_value h (globalData s) name
               = JS.get h (globalData s) name).
  { rewrite section_value_cases, Ht.
    destruct (globalData s); try reflexivity; discriminate. }
  split; [|split].
  - unfold useSectionData, useGlobalData, value.
    cbn [Ctx.data Ctx.loading Ctx.error].
    fold (section_value h (globalData s) name). rewrite Hv. reflexivity.
  - exact Hn.
  - unfold section_value_by_presence, JS.has. rewrite Ho. simpl.
    destruct (globalData s); try reflexivity; discriminate.
Qed.

Lemma conforming_sections_are_returned_witness :
  useSectionData JS.plain_object_host
    (Some (value {| globalData := TS.portfolioData; loading := false;
                    error := JS.Null; lastFetch := 1762041600050;
                    isInitialLoad := false; showProgress := false |}))
    "gallery"
  = inr {| SectionData.data :=
             JS.Arr [ JS.Obj [ ("title", JS.Str "Project/Work Title");
                               ("imageUrl", JS.Str "/path/to/image.jpg");
                               ("description", JS.Str "Description of the work");
                               ("category", JS.Str "Category") ] ];
           SectionData.loading := false;
           SectionData.error := JS.Null |}.
Proof.
  refine (proj1
    (conforming_sections_are_returned JS.plain_object_host
       {| globalData := TS.portfolioData; loading := false; error := JS.Null;
          lastFetch := 1762041600050; isInitialLoad := false;
          showProgress := false |}
       "gallery" eq_refl _)).
  simpl. tauto.
Defined.

Lemma has_own_obj_key (props : list (string * JS.Value)) (k : string) :
  JS.has_own (JS.Obj props) k = true <-> In k (JS.keys (JS.Obj props)).
Proof.
  unfold JS.has_own. rewrite existsb_exists. split.
  - intros (k' & Hi & He). apply String.eqb_eq in He. subst. exact Hi.
  - intros Hi. exists k. split; [exact Hi|apply String.eqb_refl].
Qed.

Lemma section_preload_in (d : JS.Value) (now : Z) (s : State) (k : string) :
  In (PreloadSectionImages k) (events (fetchGlobalData_resume (Fulfilled d) now) s)
  <-> JS.truthy d = true /\ In k (JS.keys d) /\ preloadable k = true.
Proof.
  rewrite events_resume. unfold data_preloads, section_preloads.
  destruct (JS.truthy d); simpl; split.
  - intros [H|[H|[H|H]]]; try discriminate.
    apply in_map_iff in H. destruct H as (k' & He & Hi).
    injection He as <-. apply filter_In in Hi. tauto.
  - intros (_ & Hi & Hp). right. right. right.
    apply in_map_iff. exists k. split; [reflexivity|].
    apply filter_In. auto.
  - intros [H|[H|[]]]; discriminate.
  - intros (H & _). discriminate.
Qed.

(** When the data service delivers an aggregate that conforms to the
    [PortfolioData] interface, the fetch sequence asks the image preloader
    for the images of the aggregate and of each of the seven sections about,
    awards, education, experience, gallery, organizations and projects, and
    not for those of home.  In general a section is preloaded exactly when
    the aggregate is truthy and the section is one of its own keys other
    than home and contact. *)
Theorem conforming_sections_are_preloaded
  (d : JS.Value) (now : Z) (s : State)
  (Hconforms : TS.conforms TS.PortfolioData d = true) :
  In (PreloadDataImages d) (events (fetchGlobalData_resume (Fulfilled d) now) s) /\
  (forall k, In k TS.section_names -> k <> "home" ->
             In (PreloadSectionImages k)
                (events (fetchGlobalData_resume (Fulfilled d) now) s)) /\
  ~ In (PreloadSectionImages "home")
       (events (fetchGlobalData_resume (Fulfilled d) now) s) /\
  (forall d' k,
     In (PreloadSectionImages k)
        (events (fetchGlobalData_resume (Fulfilled d') now) s)
     <-> JS.truthy d' = true /\ In k (JS.keys d') /\ preloadable k = true).
Proof.
  assert (Ht : JS.truthy d = true).
  { destruct d; try discriminate. reflexivity. }
  split; [|split; [|split]].
  - rewrite events_resume. unfold data_preloads. rewrite Ht. simpl. auto.
  - intros k Hk Hh. apply section_preload_in.
    destruct (section_is_structured _ Hk) as (ty & Hf & _).
    destruct (conforms_required_field _ _ _ _ Hconforms Hf) as [Ho _].
    split; [exact Ht|]. split.
    + destruct d; try discriminate. apply has_own_obj_key. exact Ho.
    + unfold preloadable. apply andb_true_iff. split; apply negb_true_iff.
      * apply String.eqb_neq. exact Hh.
      * simpl in Hk.
        repeat (destruct Hk as [Hk|Hk]; [subst k; reflexivity|]).
        contradiction.
  - rewrite section_preload_in. intros (_ & _ & H). discriminate.
  - intros d' k. apply section_preload_in.
Qed.

Lemma conforming_sections_are_preloaded_witness :
  In (PreloadSectionImages "projects")
     (events (fetchGlobalData_resume (Fulfilled TS.portfolioData) 1762041600050)
             initialState).
Proof.
  refine (proj1 (proj2
    (conforming_sections_are_preloaded
       TS.portfolioData 1762041600050 initialState eq_refl))
    "projects" _ _).
  - simpl. tauto.
  - discriminate.
Defined.

(** ** The section accessor outside a provider *)

(** [useSectionData] fails exactly where [useGlobalData] fails, with the
    same error and for every section name: it throws when, and only when, no
    provider supplies the context; it adds no failure of its own. *)
Theorem useSectionData_throws_without_provider
  (h : JS.Host) (context : Context) (sectionName : string) :
  (forall e, useSectionData h context sectionName = inl e
             <-> useGlobalData context = inl e) /\
  (useSectionData h context sectionName
   = inl (Error "useGlobalData must be used within a GlobalDataProvider")
   <-> context = None) /\
  (forall c, context = Some c ->
     exists r, useSectionData h context sectionName = inr r /\
               SectionData.loading r = Ctx.loading c /\
               SectionData.error r = Ctx.error c).
Proof.
  unfold useSectionData. destruct context as [c|]; simpl.
  - split; [|split].
    + intros e. split; discriminate.
    + split; discriminate.
    + intros c0 Hc. injection Hc as <-. eexists. repeat split.
  - split; [|split].
    + intros e. split; intros H; injection H as <-; reflexivity.
    + split; reflexivity.
    + intros c0 Hc. discriminate.
Qed.

(** ** A fulfilled fetch without data *)

(** When the data service fulfils with a falsy payload ([null], say), the
    sequence still stores it, stamps [lastFetch], ends the initial load and
    clears [loading], but asks for no image preload; and since the stored
    value is falsy the cache is stale at every clock reading, the completion
    time included: the next run of the effect fetches again. *)
Theorem falsy_payload_stays_stale
  (s : State) (d : JS.Value) (now : Z) (Hfalsy : JS.truthy d = false) :
  fetchGlobalData_resume (Fulfilled d) now s
  = (tt,
     {| globalData := d; loading := false; error := error s;
        lastFetch := now; isInitialLoad := false;
        showProgress := showProgress s |},
     [LoggerData GlobalDataLoaded; TrackDataFetch "global_portfolio_data"]) /\
  (forall t, shouldFetch (exec (fetchGlobalData_resume (Fulfilled d) now) s) t
             = true) /\
  (forall t, In (GetPortfolioDataOptimized "en")
                (events (effect t)
                        (exec (fetchGlobalData_resume (Fulfilled d) now) s))).
Proof.
  assert (E : forall t,
             shouldFetch (exec (fetchGlobalData_resume (Fulfilled d) now) s) t
             = true).
  { intros t. rewrite exec_resume. unfold shouldFetch. simpl.
    rewrite Hfalsy. reflexivity. }
  split; [|split].
  - rewrite resume_fulfilled_run. unfold data_preloads. rewrite Hfalsy.
    reflexivity.
  - exact E.
  - intros t. rewrite events_effect, E. simpl. auto.
Qed.

Lemma falsy_payload_stays_stale_witness :
  shouldFetch
    (exec (fetchGlobalData_resume (Fulfilled JS.Null) 1762041600050)
          initialState) 1762041600050 = true.
Proof.
  exact (proj1 (proj2
    (falsy_payload_stays_stale initialState JS.Null 1762041600050 eq_refl))
    1762041600050).
Defined.
